(** * The loader-script bridge of ImHex (source/helpers/loader_script_handler.cpp)

    A shallow embedding of [hex::LoaderScript]: the four native functions a
    loader script can call ([patch], [add_bookmark], [add_struct],
    [add_union], next to [get_file_path]) and [processFile], which boots the
    interpreter, runs one script and shuts the interpreter down.

    The C++ code talks to three collaborators that are not part of the file:
    the CPython C API, the data provider ([hex::prv::Provider]) and the event
    bus ([View::postEvent]).  Each is given a small executable model below;
    the functions of the file itself are transcribed statement by
    statement on top of them. *)

From Stdlib Require Import ZArith List String Ascii Bool Lia.
From Stdlib.Strings Require Import Byte.
From Stdlib Require Import DecimalString.
Import ListNotations.

Set Warnings "-register-all".

Local Open Scope string_scope.
Local Open Scope list_scope.
Local Open Scope Z_scope.

(** ** Machine integers *)

(** [u16] and [u64] are the fixed-width unsigned types of the host; a value
    is kept as a [Z] and wrapped where the C++ arithmetic wraps. *)
Definition u16_modulus : Z := 2 ^ 16.
Definition u64_modulus : Z := 2 ^ 64.
Definition wrap_u16 (z : Z) : Z := z mod u16_modulus.
Definition wrap_u64 (z : Z) : Z := z mod u64_modulus.

(** [Py_ssize_t] is the signed 64-bit type of CPython. *)
Definition PY_SSIZE_T_MIN : Z := - 2 ^ 63.
Definition PY_SSIZE_T_MAX : Z := 2 ^ 63 - 1.
Definition fits_ssize_t (z : Z) : bool :=
  (PY_SSIZE_T_MIN <=? z) && (z <=? PY_SSIZE_T_MAX).

(** ** C++ values that can be missing *)

(** A pointer is [nullptr] or points to an object. *)
Inductive ptr (A : Type) : Type :=
| nullptr
| ptr_to (a : A).
Arguments nullptr {A}.
Arguments ptr_to {A} a.

Definition is_null {A} (p : ptr A) : bool :=
  match p with nullptr => true | ptr_to _ => false end.

Definition ptr_of_option {A} (o : option A) : ptr A :=
  match o with Some a => ptr_to a | None => nullptr end.

(** An automatic variable declared without an initialiser ([u8 *patches;])
    holds an indeterminate value until something is stored in it. *)
Inductive local (A : Type) : Type :=
| Indeterminate
| Value (a : A).
Arguments Indeterminate {A}.
Arguments Value {A} a.

(** ** Python objects, as far as the bridge looks into them *)

(** Text ([PyUnicode]) is kept in its UTF-8 form; it may hold NUL
    characters, at the first of which a [const char *] view of it ends
    ([c_str] below).  A type object
    carries the three slots the translator reads ([tp_name], [tp_base],
    [tp_dict]) and whether calling the type with no argument yields an
    instance.  Python's object graph can be cyclic (a class annotated with
    itself); the bridge never follows more than two levels, so the finite
    unfolding kept here loses nothing it can observe. *)
Inductive PyObject : Type :=
| PyLong (z : Z)
| PyBytes (bs : list byte)
| PyUnicode (s : string)
| PyNone
| PyDict (items : list (PyObject * PyObject))
| PyType (t : PyTypeObject)
| PyInstance (ob : PyTypeObject)
with PyTypeObject : Type :=
| mkType (name : string) (base : option PyTypeObject)
         (dict : option (list (string * PyObject))) (new0 : bool).

Definition tp_name (t : PyTypeObject) : string :=
  match t with mkType n _ _ _ => n end.
Definition tp_base (t : PyTypeObject) : ptr PyTypeObject :=
  match t with mkType _ b _ _ => ptr_of_option b end.
Definition tp_dict (t : PyTypeObject) : ptr (list (string * PyObject)) :=
  match t with mkType _ _ d _ => ptr_of_option d end.
Definition tp_new0 (t : PyTypeObject) : bool :=
  match t with mkType _ _ _ c => c end.

(** The built-in types of the objects above. *)
Definition PyBaseObject_Type : PyTypeObject := mkType "object" None (Some []) true.
Definition builtin_type (n : string) (new0 : bool) : PyTypeObject :=
  mkType n (Some PyBaseObject_Type) (Some []) new0.

Definition ob_type (o : PyObject) : PyTypeObject :=
  match o with
  | PyLong _ => builtin_type "int" true
  | PyBytes _ => builtin_type "bytes" true
  | PyUnicode _ => builtin_type "str" true
  | PyNone => builtin_type "NoneType" true
  | PyDict _ => builtin_type "dict" true
  | PyType _ => builtin_type "type" false
  | PyInstance t => t
  end.

(** [PyObject_CallObject(callable, nullptr)]: only a type is callable here,
    and the call returns a fresh instance of it, or [nullptr] (with an
    exception set) when the constructor rejects an empty argument list. *)
Definition PyObject_CallObject (callable : PyObject) : ptr PyObject :=
  match callable with
  | PyType t => if tp_new0 t then ptr_to (PyInstance t) else nullptr
  | _ => nullptr
  end.

(** [PyTuple_GetItem(args, i)] on the argument tuple. *)
Definition PyTuple_GetItem (args : list PyObject) (i : nat) : ptr PyObject :=
  ptr_of_option (nth_error args i).

(** [PyDict_GetItemString(dict, key)] on a dictionary with string keys. *)
Fixpoint PyDict_GetItemString (dict : list (string * PyObject)) (key : string)
  : ptr PyObject :=
  match dict with
  | [] => nullptr
  | (k, v) :: rest =>
      if String.eqb k key then ptr_to v else PyDict_GetItemString rest key
  end.

(** [PyDict_Items(o)]: the (key, value) pairs in insertion order, [nullptr]
    when [o] is not a dictionary. *)
Definition PyDict_Items (o : PyObject) : ptr (list (PyObject * PyObject)) :=
  match o with
  | PyDict items => ptr_to items
  | _ => nullptr
  end.

Definition PyList_Size {A} (l : list A) : Z := Z.of_nat (List.length l).

Definition PyList_GetItem {A} (l : list A) (i : Z) : ptr A :=
  if i <? 0 then nullptr else ptr_of_option (nth_error l (Z.to_nat i)).

(** [PyUnicode_AsUTF8(o)]: the text of a [str], [nullptr] for anything else. *)
Definition PyUnicode_AsUTF8 (o : PyObject) : ptr string :=
  match o with
  | PyUnicode s => ptr_to s
  | _ => nullptr
  end.

(** ** [PyArg_ParseTuple] *)

(** What a format unit stores through the output pointers it consumes. *)
Inductive cvalue : Type :=
| CInt (z : Z)
| CStr (s : string)
| CBuf (bs : list byte).

Definition is_alpha (c : ascii) : bool :=
  let n := nat_of_ascii c in
  (((65 <=? n) && (n <=? 90)) || ((97 <=? n) && (n <=? 122)))%nat.

(** First pass over the format: every letter is one more accepted argument,
    and each ['|'] moves the number of required arguments up to the letters
    seen so far.  A [':'] or [';'] ends the units. *)
Fixpoint scan_format (fmt : string) (min : option nat) (max : nat) : nat * nat :=
  match fmt with
  | EmptyString => (match min with Some m => m | None => max end, max)
  | String c rest =>
      if (Ascii.eqb c ":" || Ascii.eqb c ";")%bool
      then (match min with Some m => m | None => max end, max)
      else if Ascii.eqb c "|" then scan_format rest (Some max) max
      else if is_alpha c then scan_format rest min (S max)
      else scan_format rest min max
  end.

Definition starts_with_hash (fmt : string) : bool :=
  match fmt with
  | String c _ => Ascii.eqb c "#"
  | EmptyString => false
  end.

(** A NUL character in a text, and the text as a NUL-terminated string
    shows it: up to the first NUL. *)
Fixpoint has_nul (s : string) : bool :=
  match s with
  | EmptyString => false
  | String c rest => Ascii.eqb c "000" || has_nul rest
  end.

Fixpoint c_str (s : string) : string :=
  match s with
  | EmptyString => EmptyString
  | String c rest => if Ascii.eqb c "000" then EmptyString else String c (c_str rest)
  end.

(** One format unit applied to one argument: the values stored and the rest
    of the format, or [None] when the argument does not convert.
    - [K]: an [int] to [unsigned long long], taken modulo 2^64 (no overflow
      check);
    - [n]: an [int] to [Py_ssize_t], refused (OverflowError) outside its
      range;
    - [s]: a [str] to a NUL-terminated string, refused (ValueError) when
      the text has an embedded NUL;
    - [y#]: a [bytes] to a pointer and a length. *)
Definition convertitem (c : ascii) (rest : string) (arg : PyObject)
  : option (list cvalue * string) :=
  if Ascii.eqb c "K" then
    match arg with
    | PyLong z => Some ([CInt (wrap_u64 z)], rest)
    | _ => None
    end
  else if Ascii.eqb c "n" then
    match arg with
    | PyLong z =>
        if fits_ssize_t z then Some ([CInt z], rest) else None
    | _ => None
    end
  else if Ascii.eqb c "s" then
    if starts_with_hash rest then None
    else match arg with
         | PyUnicode s => if has_nul s then None else Some ([CStr s], rest)
         | _ => None
         end
  else if Ascii.eqb c "y" then
    match rest, arg with
    | String h rest', PyBytes bs =>
        if Ascii.eqb h "#"
        then Some ([CBuf bs; CInt (Z.of_nat (List.length bs))], rest')
        else None
    | _, _ => None
    end
  else None.

(** Second pass: the arguments in order, one unit each, a ['|'] in front of
    a unit skipped. *)
Fixpoint convert_args (fmt : string) (args : list PyObject) : option (list cvalue) :=
  match args with
  | [] => Some []
  | arg :: args' =>
      let fmt1 := match fmt with
                  | String c rest => if Ascii.eqb c "|" then rest else fmt
                  | EmptyString => fmt
                  end in
      match fmt1 with
      | EmptyString => None
      | String c rest =>
          match convertitem c rest arg with
          | None => None
          | Some (vals, rest') =>
              match convert_args rest' args' with
              | None => None
              | Some more => Some (vals ++ more)
              end
          end
      end
  end.

(** [PyArg_ParseTuple(args, fmt, ...)]: the values it stores through the
    first output pointers, or [None] when it returns 0.  On failure it
    leaves an exception set; both callers replace that exception at once
    through [PyErr_BadArgument], so its kind is not recorded.  Output
    pointers beyond the returned values are not written. *)
Definition PyArg_ParseTuple (args : list PyObject) (fmt : string)
  : option (list cvalue) :=
  let '(min, max) := scan_format fmt None 0 in
  let nargs := List.length args in
  if ((nargs <? min) || (max <? nargs))%nat then None
  else convert_args fmt args.

(** The variable behind the [i]-th output pointer after a successful parse,
    [init] being what it held before the call. *)
Definition stored_int (outs : list cvalue) (i : nat) (init : local Z) : local Z :=
  match nth_error outs i with
  | Some (CInt z) => Value z
  | _ => init
  end.

Definition stored_str (outs : list cvalue) (i : nat) (init : local (ptr string))
  : local (ptr string) :=
  match nth_error outs i with
  | Some (CStr s) => Value (ptr_to s)
  | _ => init
  end.

Definition stored_buf (outs : list cvalue) (i : nat) (init : local (ptr (list byte)))
  : local (ptr (list byte)) :=
  match nth_error outs i with
  | Some (CBuf bs) => Value (ptr_to bs)
  | _ => init
  end.

(** ** Exceptions *)

Inductive PyExc : Type :=
| PyExc_TypeError
| PyExc_IndexError.

(** The error indicator: the exception set and its message. *)
Definition PyErr : Type := (PyExc * string)%type.

(** ** Host collaborators *)

(** [hex::prv::Provider], the abstract class behind [s_dataProvider]: the
    bridge calls [getActualSize] and [write]; [read] is what an observer of
    the data uses. *)
Class Provider (P : Type) : Type := {
  getActualSize : P -> Z;
  write : P -> Z -> list byte -> Z -> P;
  read : P -> Z -> Z -> list byte
}.

(** Modelled from the spec: the effect of the provider's bounded write is
    not in the file.  The spec promises that after a write of a non-empty
    buffer at an address below the size, the bytes from that address on are
    the buffer. *)
Class ProviderWrites (P : Type) `{Provider P} : Prop := {
  read_write :
    forall (p : P) (a : Z) (b : list byte),
      0 <= a < getActualSize p ->
      b <> [] ->
      read (write p a b (Z.of_nat (List.length b))) a (Z.of_nat (List.length b)) = b
}.

Record Region : Type := mkRegion {
  address : Z;
  size : Z
}.

Record Bookmark : Type := mkBookmark {
  region : Region;
  name : string;
  comment : string
}.

(** The events the bridge posts through [View::postEvent]. *)
Inductive Event : Type :=
| AddBookmark (b : Bookmark)
| AppendPatternLanguageCode (code : string).

(** ** The interpreter and the host environment *)

Inductive py_status : Type :=
| NotInitialized
| Initialized
| Finalized.

(** The embedded runtime, as far as [processFile] configures it. *)
Record Interpreter : Type := mkInterpreter {
  program_name : ptr string;
  python_home : ptr string;
  inittab : list string;
  status : py_status;
  sys_path : list string
}.

(** A loader script, seen from the bridge: the calls it makes into the
    [_imhex] module, in order, and what else decides whether and how it
    ends.  [Raise] is an exception of its own, other than [SystemExit],
    that reaches the top level and ends the script; [Exit] is a
    [SystemExit] that reaches the top level ([sys.exit()]); [Loop] is a
    loop that does not end. *)
Inductive guest_stmt : Type :=
| Call (method : string) (args : list PyObject)
| Raise
| Exit
| Loop.

(** The calling conventions of the method table. *)
Inductive meth_flags : Type :=
| METH_NOARGS
| METH_VARARGS.

Definition script : Type := list guest_stmt.

(** What the process sees of its surroundings: [__argv[0]], its
    [parent_path()], the directories that exist and the files that can be
    opened for reading (here: with the script each holds). *)
Record Host : Type := mkHost {
  argv0 : string;
  argv0_parent : string;
  directories : list string;
  files : list (string * script)
}.

Fixpoint lookup {A} (k : string) (l : list (string * A)) : option A :=
  match l with
  | [] => None
  | (k', v) :: rest => if String.eqb k' k then Some v else lookup k rest
  end.

Definition fs_exists (h : Host) (path : string) : bool :=
  existsb (String.eqb path) (directories h).

(** [std::strlen] and [std::copy(first, last, std::back_inserter(dst))] on
    NUL-terminated text. *)
Definition strlen (s : string) : nat := String.length (c_str s).

Definition copy_back (src : string) (first last : nat) (dst : string) : string :=
  (dst ++ substring first (last - first) src)%string.

Section Bridge.

Context {P : Type} `{Provider P}.

(** ** Program state *)

(** The two static members of [LoaderScript], the events posted so far
    (oldest first), the interpreter's error indicator, the interpreter and
    the host.  [s_dataProvider] is kept as the provider itself: the caller
    sets it before a script runs. *)
Record state : Type := mkState {
  s_filePath : string;
  s_dataProvider : P;
  events : list Event;
  error : ptr PyErr;
  python : Interpreter;
  host : Host
}.

Definition with_provider (p : P) (st : state) : state :=
  mkState (s_filePath st) p (events st) (error st) (python st) (host st).
Definition with_events (ev : list Event) (st : state) : state :=
  mkState (s_filePath st) (s_dataProvider st) ev (error st) (python st) (host st).
Definition with_error (e : ptr PyErr) (st : state) : state :=
  mkState (s_filePath st) (s_dataProvider st) (events st) e (python st) (host st).
Definition with_python (py : Interpreter) (st : state) : state :=
  mkState (s_filePath st) (s_dataProvider st) (events st) (error st) py (host st).

(** A computation ends with a value, runs into undefined behaviour of C++
    or of a library (a null pointer dereferenced, an indeterminate value
    read), is still running when the fuel is spent, or has ended the
    process ([exit]) without returning to its caller. *)
Inductive outcome (A : Type) : Type :=
| Ok (a : A) (st : state)
| Undefined (st : state)
| OutOfFuel
| Exited (st : state).
Arguments Ok {A} a st.
Arguments Undefined {A} st.
Arguments OutOfFuel {A}.
Arguments Exited {A} st.

Definition M (A : Type) : Type := state -> outcome A.

Definition ret {A} (a : A) : M A := fun st => Ok a st.

Definition bind {A B} (c : M A) (k : A -> M B) : M B :=
  fun st =>
    match c st with
    | Ok a st' => k a st'
    | Undefined st' => Undefined st'
    | OutOfFuel => OutOfFuel
    | Exited st' => Exited st'
    end.

Notation "x <- c1 ;; c2" := (bind c1 (fun x => c2))
  (at level 61, c1 at next level, right associativity).
Notation "c1 ;; c2" := (bind c1 (fun _ => c2))
  (at level 61, right associativity).

Definition undefined {A} : M A := fun st => Undefined st.
Definition exit {A} : M A := fun st => Exited st.
Definition get : M state := fun st => Ok st st.
Definition modify (f : state -> state) : M unit := fun st => Ok tt (f st).

(** Reading a variable: undefined while it is indeterminate. *)
Definition rvalue {A} (x : local A) : M A :=
  match x with
  | Value a => ret a
  | Indeterminate => undefined
  end.

(** Using a pointer as the object it points to. *)
Definition deref {A} (p : ptr A) : M A :=
  match p with
  | ptr_to a => ret a
  | nullptr => undefined
  end.

Definition PyErr_SetString (exc : PyExc) (msg : string) : M unit :=
  modify (with_error (ptr_to (exc, msg))).

Definition PyErr_BadArgument : M unit :=
  PyErr_SetString PyExc_TypeError "bad argument type for built-in operation".

Definition PyErr_Clear : M unit := modify (with_error nullptr).

(** [Py_DECREF(o)] touches the reference count of [*o]. *)
Definition Py_DECREF (o : ptr PyObject) : M unit :=
  _ <- deref o ;; ret tt.

Definition postEvent (e : Event) : M unit :=
  modify (fun st => with_events (events st ++ [e]) st).

Definition Py_RETURN_NONE : M (ptr PyObject) := ret (ptr_to PyNone).

(** ** The host API *)

Definition Py_getFilePath (args : list PyObject) : M (ptr PyObject) :=
  st <- get ;;
  ret (ptr_to (PyUnicode (s_filePath st))).

Definition Py_addPatch (args : list PyObject) : M (ptr PyObject) :=
  let address : local Z := Indeterminate in
  let patches : local (ptr (list byte)) := Indeterminate in
  let count : local Z := Indeterminate in
  match PyArg_ParseTuple args "K|y#" with
  | None => PyErr_BadArgument ;; ret nullptr
  | Some outs =>
      let address := stored_int outs 0 address in
      let patches := stored_buf outs 1 patches in
      let count := stored_int outs 2 count in
      invalid <- (p <- rvalue patches ;;
                  if is_null p then ret true
                  else c <- rvalue count ;; ret (c =? 0)) ;;
      if invalid : bool then
        PyErr_SetString PyExc_TypeError "Invalid patch provided" ;;
        ret nullptr
      else
        a <- rvalue address ;;
        st <- get ;;
        if a >=? getActualSize (s_dataProvider st) then
          PyErr_SetString PyExc_IndexError "address out of range" ;;
          ret nullptr
        else
          p <- rvalue patches ;;
          buffer <- deref p ;;
          c <- rvalue count ;;
          modify (with_provider (write (s_dataProvider st) a buffer c)) ;;
          Py_RETURN_NONE
  end.

Definition Py_addBookmark (args : list PyObject) : M (ptr PyObject) :=
  let bookmark_region_address : local Z := Indeterminate in
  let bookmark_region_size : local Z := Indeterminate in
  let bookmark_name : string := EmptyString in
  let bookmark_comment : string := EmptyString in
  let name : local (ptr string) := Value nullptr in
  let comment : local (ptr string) := Value nullptr in
  match PyArg_ParseTuple args "K|n|s|s" with
  | None => PyErr_BadArgument ;; ret nullptr
  | Some outs =>
      let bookmark_region_address := stored_int outs 0 bookmark_region_address in
      let bookmark_region_size := stored_int outs 1 bookmark_region_size in
      let name := stored_str outs 2 name in
      let comment := stored_str outs 3 comment in
      n <- rvalue name ;;
      c <- rvalue comment ;;
      if is_null n || is_null c then
        PyErr_SetString PyExc_IndexError "address out of range" ;;
        ret nullptr
      else
        n <- deref n ;;
        c <- deref c ;;
        let bookmark_name := copy_back n 0 (strlen n) bookmark_name in
        let bookmark_comment := copy_back c 0 (strlen c) bookmark_comment in
        a <- rvalue bookmark_region_address ;;
        s <- rvalue bookmark_region_size ;;
        postEvent (AddBookmark
                     (mkBookmark (mkRegion a (wrap_u64 s))
                                 bookmark_name bookmark_comment)) ;;
        Py_RETURN_NONE
  end.

(** The line feed of the C++ literals. *)
Definition nl : string := String "010"%char EmptyString.

(** [t->tp_base == nullptr || t->tp_base->tp_name != "ImHexType"s] *)
Definition not_ImHexType (t : PyTypeObject) : bool :=
  match tp_base t with
  | nullptr => true
  | ptr_to b => negb (String.eqb (tp_name b) "ImHexType")
  end.

(** [PyObject_CallObject(callable, nullptr)] where an exception may be
    pending from the call before it: the interpreter checks the result of
    every call, and with an exception set it drops the result and returns
    [nullptr] (SystemError).  The failed [PyUnicode_AsUTF8] of a key that
    is not text leaves such an exception. *)
Definition call_while_pending (pending : bool) (callable : PyObject) : ptr PyObject :=
  if pending then nullptr else PyObject_CallObject callable.

(** The loop of [createStructureType] over the annotation items, from the
    counter [i] (a [u16]) and the text built so far.  It yields the
    finished text, or [None] when the body returned from the function
    (with an exception set).  One unit of fuel pays for one test of the
    loop condition. *)
Fixpoint member_loop (fuel : nat) (items : list (PyObject * PyObject))
         (i : Z) (code : string) : M (option string) :=
  match fuel with
  | O => fun _ => OutOfFuel
  | S fuel' =>
      if i <? PyList_Size items then
        item <- deref (PyList_GetItem items i) ;;
        let memberName := PyUnicode_AsUTF8 (fst item) in
        let memberType : ptr PyObject := ptr_to (snd item) in
        match memberType with
        | nullptr =>
            PyErr_SetString PyExc_TypeError
              "member needs to have a annotation extending from ImHexType" ;;
            ret None
        | ptr_to memberType =>
            let memberTypeInstance :=
              call_while_pending (is_null memberName) memberType in
            if match memberTypeInstance with
               | nullptr => true
               | ptr_to inst => not_ImHexType (ob_type inst)
               end
            then
              PyErr_SetString PyExc_TypeError
                "member needs to have a annotation extending from ImHexType" ;;
              Py_DECREF memberTypeInstance ;;
              ret None
            else
              inst <- deref memberTypeInstance ;;
              memberName <- deref memberName ;;
              let code : string :=
                (code ++ ("   " ++ tp_name (ob_type inst) ++ " " ++ c_str memberName
                          ++ ";" ++ nl))%string in
              Py_DECREF memberTypeInstance ;;
              member_loop fuel' items (wrap_u16 (i + 1)) code
        end
      else ret (Some code)
  end.

Definition createStructureType (fuel : nat) (keyword : string)
           (args : list PyObject) : M (ptr PyObject) :=
  match PyTuple_GetItem args 0 with
  | nullptr => PyErr_BadArgument ;; ret nullptr
  | ptr_to type =>
      match PyObject_CallObject type with
      | nullptr => PyErr_BadArgument ;; ret nullptr
      | ptr_to instance =>
          if not_ImHexType (ob_type instance) then
            PyErr_SetString PyExc_TypeError
              "class type must extend from ImHexType" ;;
            ret nullptr
          else
            match tp_dict (ob_type instance) with
            | nullptr => PyErr_BadArgument ;; ret nullptr
            | ptr_to dict =>
                match PyDict_GetItemString dict "__annotations__" with
                | nullptr => PyErr_BadArgument ;; ret nullptr
                | ptr_to annotations =>
                    match PyDict_Items annotations with
                    | nullptr => PyErr_BadArgument ;; ret nullptr
                    | ptr_to items =>
                        let code : string :=
                          (keyword ++ " " ++ tp_name (ob_type instance)
                                   ++ " {" ++ nl)%string in
                        r <- member_loop fuel items 0 code ;;
                        match r with
                        | None => ret nullptr
                        | Some code =>
                            let code : string := (code ++ "};" ++ nl)%string in
                            postEvent (AppendPatternLanguageCode code) ;;
                            Py_RETURN_NONE
                        end
                    end
                end
            end
      end
  end.

Definition Py_addStruct (fuel : nat) (args : list PyObject) : M (ptr PyObject) :=
  createStructureType fuel "struct" args.

Definition Py_addUnion (fuel : nat) (args : list PyObject) : M (ptr PyObject) :=
  createStructureType fuel "union" args.

(** ** The lifecycle manager *)

(** The method table of the [_imhex] module. *)
Definition ImHexMethods (fuel : nat)
  : list (string * ((list PyObject -> M (ptr PyObject)) * meth_flags)) :=
  [ ("get_file_path", (Py_getFilePath, METH_NOARGS));
    ("patch", (Py_addPatch, METH_VARARGS));
    ("add_bookmark", (Py_addBookmark, METH_VARARGS));
    ("add_struct", (Py_addStruct fuel, METH_VARARGS));
    ("add_union", (Py_addUnion fuel, METH_VARARGS)) ].

(** The interpreter calling the method [name] of the table: a
    [METH_NOARGS] method given an argument is not entered, the interpreter
    raises [TypeError] itself. *)
Definition call_method (name : string) (f : list PyObject -> M (ptr PyObject))
           (flags : meth_flags) (args : list PyObject) : M (ptr PyObject) :=
  match flags, args with
  | METH_NOARGS, _ :: _ =>
      PyErr_SetString PyExc_TypeError
        (name ++ "() takes no arguments ("
              ++ NilEmpty.string_of_uint (Nat.to_uint (List.length args))
              ++ " given)") ;;
      ret nullptr
  | _, _ => f args
  end.

Definition modify_python (f : Interpreter -> Interpreter) : M unit :=
  modify (fun st => with_python (f (python st)) st).

Definition Py_SetProgramName (n : string) : M unit :=
  modify_python (fun py =>
    mkInterpreter (ptr_to n) (python_home py) (inittab py) (status py) (sys_path py)).

Definition Py_SetPythonHome (h : string) : M unit :=
  modify_python (fun py =>
    mkInterpreter (program_name py) (ptr_to h) (inittab py) (status py) (sys_path py)).

Definition PyImport_AppendInittab (m : string) : M unit :=
  modify_python (fun py =>
    mkInterpreter (program_name py) (python_home py) (inittab py ++ [m])
                  (status py) (sys_path py)).

Definition set_status (s : py_status) : M unit :=
  modify_python (fun py =>
    mkInterpreter (program_name py) (python_home py) (inittab py) s (sys_path py)).

Definition Py_Initialize : M unit := set_status Initialized.
Definition Py_Finalize : M unit := set_status Finalized.

(** [PyList_Insert(PySys_GetObject("path"), 0, path)] *)
Definition sys_path_insert0 (path : string) : M unit :=
  modify_python (fun py =>
    mkInterpreter (program_name py) (python_home py) (inittab py) (status py)
                  (path :: sys_path py)).

(** [fopen(path, "r")]: the stream, [nullptr] when the file cannot be
    opened. *)
Definition fopen (path : string) : M (ptr script) :=
  st <- get ;;
  ret (ptr_of_option (lookup path (files (host st)))).

(** [fclose] requires a stream. *)
Definition fclose (fp : ptr script) : M unit :=
  _ <- deref fp ;; ret tt.

(** The statements of a script in order.  A call into the module needs
    the module in the inittab and the method in its table; a call that
    returns [nullptr] has raised, and, like a [Raise], ends the script:
    the interpreter reports the exception, clears it and gives -1.  On a
    [SystemExit] the interpreter finalizes itself and ends the process
    ([Py_Exit]); a loop that does not end is never out of the call. *)
Fixpoint run_script (fuel : nat) (s : script) : M Z :=
  match s with
  | [] => ret 0
  | Raise :: _ => PyErr_Clear ;; ret (-1)
  | Exit :: _ => Py_Finalize ;; exit
  | Loop :: _ => fun _ => OutOfFuel
  | Call method args :: rest =>
      st <- get ;;
      if negb (existsb (String.eqb "_imhex") (inittab (python st))) then
        PyErr_Clear ;; ret (-1)
      else
        match lookup method (ImHexMethods fuel) with
        | None => PyErr_Clear ;; ret (-1)
        | Some (f, flags) =>
            r <- call_method method f flags args ;;
            if is_null r then PyErr_Clear ;; ret (-1)
            else run_script fuel rest
        end
  end.

(** [PyRun_SimpleFile(fp, filename)] reads the script from the stream
    [fp], which it requires, into an initialized interpreter. *)
Definition PyRun_SimpleFile (fuel : nat) (fp : ptr script) : M Z :=
  s <- deref fp ;;
  st <- get ;;
  match status (python st) with
  | Initialized => run_script fuel s
  | _ => undefined
  end.

Definition processFile (fuel : nat) (scriptPath : string) : M bool :=
  st <- get ;;
  Py_SetProgramName (argv0 (host st)) ;;
  (if fs_exists (host st) (argv0_parent (host st) ++ "/lib/python3.8")%string
   then Py_SetPythonHome (argv0_parent (host st))
   else ret tt) ;;
  PyImport_AppendInittab "_imhex" ;;
  Py_Initialize ;;
  sys_path_insert0 "lib" ;;
  scriptFile <- fopen scriptPath ;;
  _ <- PyRun_SimpleFile fuel scriptFile ;;
  fclose scriptFile ;;
  Py_Finalize ;;
  ret true.

End Bridge.

Arguments state P : clear implicits.
Arguments outcome P A : clear implicits.
Arguments Ok {P A} a st.
Arguments Undefined {P A} st.
Arguments OutOfFuel {P A}.
Arguments Exited {P A} st.

(** ** A provider to run the bridge on *)

(** Modelled from the spec: a provider over a byte buffer in memory.  A
    write replaces the bytes from the address on and lengthens the data
    where it runs past the end, a gap being filled with zero bytes, as a
    seek and a write on a file do. *)
Definition buffer_write (d : list byte) (a : Z) (b : list byte) (n : Z) : list byte :=
  let a' := Z.to_nat a in
  let n' := Z.to_nat n in
  firstn a' d ++ repeat x00 (a' - List.length d) ++ firstn n' b ++ skipn (a' + n') d.

Definition buffer_read (d : list byte) (a n : Z) : list byte :=
  firstn (Z.to_nat n) (skipn (Z.to_nat a) d).

#[export] Instance BufferProvider : Provider (list byte) := {
  getActualSize d := Z.of_nat (List.length d);
  write := buffer_write;
  read := buffer_read
}.

Definition no_interpreter : Interpreter :=
  mkInterpreter nullptr nullptr [] NotInitialized [].

(** A state to start from: the file under inspection with its bytes, and a
    host with the given script files. *)
Definition initial_state (d : list byte) (scripts : list (string * script))
  : state (list byte) :=
  mkState "dump.bin" d [] nullptr no_interpreter
          (mkHost "/opt/imhex/imhex" "/opt/imhex" [] scripts).

(** ** Vocabulary of the statements *)

Section Vocabulary.

Context {P : Type} `{Provider P}.

(** The call returned [nullptr] with the exception [exc] set, and changed
    neither the provider nor the posted events. *)
Definition raises (exc : PyExc) (st : state P) (o : outcome P (ptr PyObject)) : Prop :=
  exists msg st',
    o = Ok nullptr st' /\
    error st' = ptr_to (exc, msg) /\
    s_dataProvider st' = s_dataProvider st /\
    events st' = events st.


End Vocabulary.

(** A member of an annotation mapping that the translator accepts: a text
    key, and a type that can be instantiated with no argument and whose
    immediate base is named [ImHexType]. *)
Definition member_ok (item : PyObject * PyObject) : bool :=
  match item with
  | (PyUnicode _, PyType t) => tp_new0 t && negb (not_ImHexType t)
  | _ => false
  end.

(** The annotation mapping of a class, as the translator reaches it. *)
Definition annotations (c : PyTypeObject) : ptr (list (PyObject * PyObject)) :=
  match tp_dict c with
  | nullptr => nullptr
  | ptr_to dict =>
      match PyDict_GetItemString dict "__annotations__" with
      | nullptr => nullptr
      | ptr_to o => PyDict_Items o
      end
  end.

(** The base class of the scripts' types, and classes built on it. *)
Definition ImHexType : PyTypeObject :=
  mkType "ImHexType" (Some PyBaseObject_Type) (Some []) true.

Definition guest_class (n : string) (members : list (PyObject * PyObject))
           (new0 : bool) : PyTypeObject :=
  mkType n (Some ImHexType) (Some [("__annotations__", PyDict members)]) new0.




(** The line the translator emits for a member [f] of type [t]: the name
    is appended as a NUL-terminated string. *)
Definition member_line (t : PyTypeObject) (f : string) : string :=
  "   " ++ tp_name t ++ " " ++ c_str f ++ ";" ++ nl.

(** ** Strings and machine integers *)

Lemma append_assoc (a b c : string) : ((a ++ b) ++ c = a ++ (b ++ c))%string.
Proof.
  induction a as [|ch a IH]; cbn.
  - reflexivity.
  - now rewrite IH.
Qed.

Lemma substring_all (s : string) : substring 0 (String.length s) s = s.
Proof.
  induction s as [|ch s IH]; cbn.
  - reflexivity.
  - now rewrite IH.
Qed.

Lemma c_str_no_nul (s : string) : has_nul s = false -> c_str s = s.
Proof.
  induction s as [|ch s IH]; cbn; [reflexivity|].
  destruct (Ascii.eqb ch "000"); [discriminate|].
  cbn. intros Hs. now rewrite IH.
Qed.

Lemma substring_c_str (s : string) : substring 0 (String.length (c_str s)) s = c_str s.
Proof.
  induction s as [|ch s IH]; cbn; [reflexivity|].
  destruct (Ascii.eqb ch "000"); cbn; [reflexivity|].
  now rewrite IH.
Qed.

Lemma copy_back_whole (s : string) : copy_back s 0 (strlen s) EmptyString = c_str s.
Proof.
  unfold copy_back, strlen. cbn. rewrite Nat.sub_0_r. apply substring_c_str.
Qed.

Lemma wrap_u64_small (z : Z) : 0 <= z < u64_modulus -> wrap_u64 z = z.
Proof. intros Hz. unfold wrap_u64. now apply Z.mod_small. Qed.

Lemma wrap_u16_range (z : Z) : 0 <= wrap_u16 z < u16_modulus.
Proof. unfold wrap_u16, u16_modulus. apply Z.mod_pos_bound. lia. Qed.

Lemma wrap_u16_small (z : Z) : 0 <= z < u16_modulus -> wrap_u16 z = z.
Proof. intros Hz. unfold wrap_u16. now apply Z.mod_small. Qed.

(** Runs the monadic plumbing of a goal: binds, reads of variables and
    pointers, and the primitive effects. *)
Ltac run :=
  cbv beta iota zeta delta
      [bind ret get modify undefined rvalue deref is_null
       PyErr_SetString PyErr_BadArgument PyErr_Clear Py_DECREF postEvent
       Py_RETURN_NONE].

(** ** [patch] *)

Section PatchFacts.

Context {P : Type} `{Provider P}.

Lemma parse_patch_buffer (a : Z) (b : list byte) :
  PyArg_ParseTuple [PyLong a; PyBytes b] "K|y#"
  = Some [CInt (wrap_u64 a); CBuf b; CInt (Z.of_nat (List.length b))].
Proof. reflexivity. Qed.

Lemma parse_patch_address_only (a : Z) :
  PyArg_ParseTuple [PyLong a] "K|y#" = Some [CInt (wrap_u64 a)].
Proof. reflexivity. Qed.

(** What [patch(a, b)] does, by the three tests of the function in the
    order the function makes them. *)
Lemma Py_addPatch_cases (a : Z) (b : list byte) (st : state P) :
  Py_addPatch [PyLong a; PyBytes b] st =
  if Z.of_nat (List.length b) =? 0 then
    Ok nullptr (with_error (ptr_to (PyExc_TypeError, "Invalid patch provided")) st)
  else if wrap_u64 a >=? getActualSize (s_dataProvider st) then
    Ok nullptr (with_error (ptr_to (PyExc_IndexError, "address out of range")) st)
  else
    Ok (ptr_to PyNone)
       (with_provider
          (write (s_dataProvider st) (wrap_u64 a) b (Z.of_nat (List.length b))) st).
Proof.
  unfold Py_addPatch. rewrite parse_patch_buffer.
  cbn [stored_int stored_buf nth_error].
  run.
  destruct (Z.of_nat (List.length b) =? 0); [reflexivity|].
  destruct (wrap_u64 a >=? getActualSize (s_dataProvider st)); reflexivity.
Qed.

Lemma length_nonzero {A} (l : list A) :
  l <> [] -> (Z.of_nat (List.length l) =? 0) = false.
Proof.
  intros Hl. apply Z.eqb_neq. destruct l; [congruence|]. cbn [List.length]. lia.
Qed.

(** C3: for an address below the provider's size and a non-empty buffer,
    [patch(a, b)] returns [None] with no exception set, its whole effect is
    one [write] of the buffer at the address, and the provider's bytes from
    [a] on, [len(b)] of them, are then [b]. *)
Theorem patch_writes_buffer `{!ProviderWrites P}
        (a : Z) (b : list byte) (st : state P) :
  0 <= a < u64_modulus ->
  a < getActualSize (s_dataProvider st) ->
  b <> [] ->
  exists st',
    Py_addPatch [PyLong a; PyBytes b] st = Ok (ptr_to PyNone) st' /\
    st' = with_provider (write (s_dataProvider st) a b (Z.of_nat (List.length b))) st /\
    error st' = error st /\
    events st' = events st /\
    read (s_dataProvider st') a (Z.of_nat (List.length b)) = b.
Proof.
  intros Ha Hlt Hb.
  rewrite Py_addPatch_cases, (length_nonzero b Hb), (wrap_u64_small a Ha).
  replace (a >=? getActualSize (s_dataProvider st)) with false
    by (symmetry; rewrite Z.geb_leb; apply Z.leb_gt; exact Hlt).
  eexists. split; [reflexivity|]. split; [reflexivity|].
  cbn. repeat split. apply read_write; [lia | exact Hb].
Qed.

(** C4, amended: for an address at or beyond the provider's size and a
    non-empty buffer, [patch(a, b)] raises the range error ([IndexError],
    "address out of range") and changes nothing but the error indicator:
    no write reaches the provider. *)
Theorem patch_out_of_range (a : Z) (b : list byte) (st : state P) :
  0 <= a < u64_modulus ->
  a >= getActualSize (s_dataProvider st) ->
  b <> [] ->
  Py_addPatch [PyLong a; PyBytes b] st
  = Ok nullptr (with_error (ptr_to (PyExc_IndexError, "address out of range")) st)
  /\ raises PyExc_IndexError st (Py_addPatch [PyLong a; PyBytes b] st).
Proof.
  intros Ha Hge Hb.
  assert (E : Py_addPatch [PyLong a; PyBytes b] st
              = Ok nullptr (with_error (ptr_to (PyExc_IndexError, "address out of range")) st)).
  { rewrite Py_addPatch_cases, (length_nonzero b Hb), (wrap_u64_small a Ha).
    replace (a >=? getActualSize (s_dataProvider st)) with true
      by (symmetry; rewrite Z.geb_leb; apply Z.leb_le; lia).
    reflexivity. }
  split; [exact E|].
  rewrite E. eexists _, _. repeat split.
Qed.

(** An empty buffer is refused before the address is looked at: whatever
    the address, [patch] with an empty [bytes] raises [TypeError]
    ("Invalid patch provided") and changes nothing but the error
    indicator. *)
Lemma patch_empty_buffer (a : Z) (st : state P) :
  Py_addPatch [PyLong a; PyBytes []] st
  = Ok nullptr (with_error (ptr_to (PyExc_TypeError, "Invalid patch provided")) st).
Proof. rewrite Py_addPatch_cases. reflexivity. Qed.

(** C10, at the failing input: with the buffer left out, the parse stores
    the address only, and the test [patches == nullptr || count == 0]
    reads [patches], which was declared without an initialiser and never
    assigned.  No argument error is raised: the behaviour is undefined,
    whatever the address. *)
Theorem patch_missing_buffer_reads_indeterminate (a : Z) (st : state P) :
  Py_addPatch [PyLong a] st = Undefined st.
Proof.
  unfold Py_addPatch. rewrite parse_patch_address_only. reflexivity.
Qed.

End PatchFacts.

(** The provider over a buffer keeps the promise of the spec. *)
#[export] Instance BufferProvider_writes : ProviderWrites (list byte).
Proof.
  split. intros d a b [Ha Hlt] Hb. cbn in *.
  unfold buffer_read, buffer_write.
  rewrite Nat2Z.id.
  assert (Hlen : (Z.to_nat a < List.length d)%nat) by lia.
  replace (Z.to_nat a - List.length d)%nat with 0%nat by lia.
  cbn [repeat app].
  rewrite skipn_app, length_firstn.
  replace (Nat.min (Z.to_nat a) (List.length d)) with (Z.to_nat a) by lia.
  rewrite Nat.sub_diag, skipn_0.
  rewrite (skipn_all2 (firstn (Z.to_nat a) d)) by (rewrite length_firstn; lia).
  cbn [app].
  rewrite firstn_all, firstn_app, firstn_all, Nat.sub_diag, firstn_0.
  apply app_nil_r.
Qed.

(** C3, on a three-byte provider: [patch(1, b"\xff")]. *)
Lemma patch_writes_buffer_witness :
  let st := initial_state [x01; x02; x03] [] in
  exists st',
    Py_addPatch [PyLong 1; PyBytes [xff]] st = Ok (ptr_to PyNone) st' /\
    st' = with_provider (write (s_dataProvider st) 1 [xff] 1) st /\
    error st' = error st /\
    events st' = events st /\
    read (s_dataProvider st') 1 1 = [xff].
Proof.
  apply (patch_writes_buffer 1 [xff] (initial_state [x01; x02; x03] [])).
  - unfold u64_modulus. lia.
  - cbn. lia.
  - discriminate.
Defined.

(** C4 as stated fails for the empty buffer: on a one-byte provider,
    [patch(1, bytes())] has its address at the provider's size, and raises
    [TypeError] ("Invalid patch provided"), not the range error. *)
Lemma patch_out_of_range_empty_buffer :
  let st := initial_state [x01] [] in
  1 >= getActualSize (s_dataProvider st) /\
  Py_addPatch [PyLong 1; PyBytes []] st
  = Ok nullptr (with_error (ptr_to (PyExc_TypeError, "Invalid patch provided")) st) /\
  ~ raises PyExc_IndexError st (Py_addPatch [PyLong 1; PyBytes []] st).
Proof.
  cbn zeta. split; [cbn; lia|]. split; [reflexivity|].
  intros (msg & st' & E & Herr & _).
  rewrite patch_empty_buffer in E. injection E as <-.
  cbn in Herr. discriminate.
Qed.

(** C4, amended, on a one-byte provider: [patch(1, b"\xff")]. *)
Lemma patch_out_of_range_witness :
  let st := initial_state [x01] [] in
  Py_addPatch [PyLong 1; PyBytes [xff]] st
  = Ok nullptr (with_error (ptr_to (PyExc_IndexError, "address out of range")) st)
  /\ raises PyExc_IndexError st (Py_addPatch [PyLong 1; PyBytes [xff]] st).
Proof.
  apply (patch_out_of_range 1 [xff] (initial_state [x01] [])).
  - unfold u64_modulus. lia.
  - cbn. lia.
  - discriminate.
Defined.

(** ** [add_bookmark] *)

Section BookmarkFacts.

Context {P : Type} `{Provider P}.

Definition bad_argument : PyErr :=
  (PyExc_TypeError, "bad argument type for built-in operation").

Lemma parse_bookmark_four (a s : Z) (n c : string) :
  PyArg_ParseTuple [PyLong a; PyLong s; PyUnicode n; PyUnicode c] "K|n|s|s"
  = if fits_ssize_t s && negb (has_nul n) && negb (has_nul c)
    then Some [CInt (wrap_u64 a); CInt s; CStr n; CStr c]
    else None.
Proof.
  cbv -[wrap_u64 fits_ssize_t has_nul].
  destruct (fits_ssize_t s), (has_nul n), (has_nul c); reflexivity.
Qed.

Lemma parse_bookmark_three (a s : Z) (n : string) :
  PyArg_ParseTuple [PyLong a; PyLong s; PyUnicode n] "K|n|s|s"
  = if fits_ssize_t s && negb (has_nul n)
    then Some [CInt (wrap_u64 a); CInt s; CStr n] else None.
Proof.
  cbv -[wrap_u64 fits_ssize_t has_nul].
  destruct (fits_ssize_t s), (has_nul n); reflexivity.
Qed.

(** What [add_bookmark(a, s, n, c)] does: the size goes through the
    signed format unit [n], the two texts through [s], which refuses an
    embedded NUL. *)
Lemma Py_addBookmark_cases (a s : Z) (n c : string) (st : state P) :
  Py_addBookmark [PyLong a; PyLong s; PyUnicode n; PyUnicode c] st =
  if fits_ssize_t s && negb (has_nul n) && negb (has_nul c) then
    Ok (ptr_to PyNone)
       (with_events
          (events st ++ [AddBookmark (mkBookmark (mkRegion (wrap_u64 a) (wrap_u64 s)) n c)])
          st)
  else Ok nullptr (with_error (ptr_to bad_argument) st).
Proof.
  unfold Py_addBookmark. rewrite parse_bookmark_four.
  destruct (fits_ssize_t s); [|reflexivity].
  destruct (has_nul n) eqn:Hn; [reflexivity|].
  destruct (has_nul c) eqn:Hc; [reflexivity|].
  cbn [andb negb stored_int stored_str nth_error].
  run. cbn [orb].
  now rewrite !copy_back_whole, (c_str_no_nul n Hn), (c_str_no_nul c Hc).
Qed.

(** With three arguments the parse leaves [comment] null, and the test
    on the two texts raises. *)
Lemma Py_addBookmark_three (a s : Z) (n : string) (st : state P) :
  Py_addBookmark [PyLong a; PyLong s; PyUnicode n] st
  = Ok nullptr
       (with_error
          (ptr_to (if fits_ssize_t s && negb (has_nul n)
                   then (PyExc_IndexError, "address out of range")
                   else bad_argument))
          st).
Proof.
  unfold Py_addBookmark. rewrite parse_bookmark_three.
  destruct (fits_ssize_t s && negb (has_nul n)); reflexivity.
Qed.

(** C7, at the failing input: with the comment left out, the parse
    succeeds (the format asks for three arguments), the test on the two
    texts finds [comment] null, and the exception set is the one of the
    range check of [patch], [IndexError] "address out of range", not an
    argument error.  No event is posted.  (A name with an embedded NUL
    does not get that far: it fails the parse, which is the argument
    error.) *)
Theorem add_bookmark_without_comment (a s : Z) (n : string) (st : state P) :
  fits_ssize_t s = true ->
  Py_addBookmark [PyLong a; PyLong s; PyUnicode n] st
  = Ok nullptr
       (with_error
          (ptr_to (if has_nul n then bad_argument
                   else (PyExc_IndexError, "address out of range")))
          st).
Proof.
  intros Hs. rewrite Py_addBookmark_three, Hs.
  destruct (has_nul n); reflexivity.
Qed.

(** C8, at the failing input: a size above [PY_SSIZE_T_MAX], which an
    unsigned 64-bit size can be, does not convert through [n]; the call
    raises the argument error and posts no event. *)
Theorem add_bookmark_size_beyond_ssize_t (a s : Z) (n c : string) (st : state P) :
  PY_SSIZE_T_MAX < s ->
  Py_addBookmark [PyLong a; PyLong s; PyUnicode n; PyUnicode c] st
  = Ok nullptr (with_error (ptr_to bad_argument) st).
Proof.
  intros Hs. rewrite Py_addBookmark_cases.
  replace (fits_ssize_t s) with false; [reflexivity|].
  symmetry. unfold fits_ssize_t. apply andb_false_iff. right.
  apply Z.leb_gt. exact Hs.
Qed.



(** With fewer than four arguments, so with the name or the comment
    absent, the call returns [nullptr] with an exception set and posts
    nothing. *)
Lemma add_bookmark_text_absent_posts_nothing (args : list PyObject) (st : state P) :
  (List.length args < 4)%nat ->
  exists e,
    Py_addBookmark args st = Ok nullptr (with_error (ptr_to e) st).
Proof.
  intros Hlen.
  destruct args as [|x [|y [|z [|w rest]]]]; cbn in Hlen; try lia;
    try (eexists; reflexivity).
  destruct x; try (eexists; reflexivity).
  destruct y; try (eexists; reflexivity).
  destruct z;
    try (rewrite Py_addBookmark_three; eexists; reflexivity);
    cbv -[wrap_u64 fits_ssize_t has_nul with_error];
    match goal with
    | |- context [fits_ssize_t ?s] => destruct (fits_ssize_t s)
    end; eexists; reflexivity.
Qed.

End BookmarkFacts.

(** C7: [add_bookmark(0, 16, "header")]. *)
Lemma add_bookmark_without_comment_witness :
  let st := initial_state [x01; x02; x03] [] in
  Py_addBookmark [PyLong 0; PyLong 16; PyUnicode "header"] st
  = Ok nullptr (with_error (ptr_to (PyExc_IndexError, "address out of range")) st).
Proof.
  apply (add_bookmark_without_comment 0 16 "header"
           (initial_state [x01; x02; x03] [])).
  reflexivity.
Defined.

(** C8: [add_bookmark(0, 2 ** 63, "header", "magic")]. *)
Lemma add_bookmark_size_beyond_ssize_t_witness :
  let st := initial_state [x01; x02; x03] [] in
  Py_addBookmark [PyLong 0; PyLong (2 ^ 63); PyUnicode "header"; PyUnicode "magic"] st
  = Ok nullptr (with_error (ptr_to bad_argument) st).
Proof.
  apply (add_bookmark_size_beyond_ssize_t 0 (2 ^ 63) "header" "magic"
           (initial_state [x01; x02; x03] [])).
  unfold PY_SSIZE_T_MAX. lia.
Defined.

(** ** [add_struct] and [add_union] *)

Section TranslatorFacts.

Context {P : Type} `{Provider P}.

Definition member_error : PyErr :=
  (PyExc_TypeError, "member needs to have a annotation extending from ImHexType").

(** One turn of the loop on an accepted member: its line is appended and
    the counter goes on, as a [u16]. *)
Lemma member_loop_accepts (fuel : nat) (items : list (PyObject * PyObject))
      (i : Z) (code f : string) (t : PyTypeObject) (st : state P) :
  i < PyList_Size items ->
  PyList_GetItem items i = ptr_to (PyUnicode f, PyType t) ->
  tp_new0 t = true ->
  not_ImHexType t = false ->
  member_loop (S fuel) items i code st
  = member_loop fuel items (wrap_u16 (i + 1)) (code ++ member_line t f) st.
Proof.
  intros Hlt Hget Hnew Hbase.
  cbn [member_loop]. apply Z.ltb_lt in Hlt. rewrite Hlt. run.
  rewrite Hget. cbn [fst snd PyUnicode_AsUTF8 call_while_pending PyObject_CallObject].
  rewrite Hnew. cbn [ob_type]. rewrite Hbase. reflexivity.
Qed.



(** The call of a member's type gives no instance when the type cannot
    be called with no argument, and also when the key was not text. *)
Lemma call_while_pending_null (pending : bool) (v : PyObject) :
  pending = true \/ PyObject_CallObject v = nullptr ->
  call_while_pending pending v = nullptr.
Proof.
  unfold call_while_pending. intros [-> | Hcall]; [reflexivity|].
  now destruct pending.
Qed.

(** Without an instance, the exception is set and then [Py_DECREF] is
    applied to the null pointer. *)
Lemma member_loop_no_instance (fuel : nat) (items : list (PyObject * PyObject))
      (i : Z) (code : string) (k v : PyObject) (st : state P) :
  i < PyList_Size items ->
  PyList_GetItem items i = ptr_to (k, v) ->
  call_while_pending (match PyUnicode_AsUTF8 k with
                      | nullptr => true
                      | ptr_to _ => false
                      end) v = nullptr ->
  member_loop (S fuel) items i code st
  = Undefined (with_error (ptr_to member_error) st).
Proof.
  intros Hlt Hget Hcall.
  cbn [member_loop]. apply Z.ltb_lt in Hlt. rewrite Hlt. run.
  rewrite Hget. cbn [fst snd]. rewrite Hcall. reflexivity.
Qed.

(** A member whose type cannot be called with no argument: the exception
    is set, and then [Py_DECREF] is applied to the null result. *)
Lemma member_loop_null_instance (fuel : nat) (items : list (PyObject * PyObject))
      (i : Z) (code : string) (k v : PyObject) (st : state P) :
  i < PyList_Size items ->
  PyList_GetItem items i = ptr_to (k, v) ->
  PyObject_CallObject v = nullptr ->
  member_loop (S fuel) items i code st
  = Undefined (with_error (ptr_to member_error) st).
Proof.
  intros Hlt Hget Hcall.
  apply (member_loop_no_instance fuel items i code k v st Hlt Hget).
  apply call_while_pending_null. now right.
Qed.

(** Up to the loop: a class that can be instantiated, extends
    [ImHexType] and has an annotation mapping reaches the loop with the
    opening line, and what the loop yields decides the rest. *)
Lemma createStructureType_loop (fuel : nat) (keyword : string)
      (C : PyTypeObject) (items : list (PyObject * PyObject)) (st : state P) :
  tp_new0 C = true ->
  not_ImHexType C = false ->
  annotations C = ptr_to items ->
  createStructureType fuel keyword [PyType C] st
  = match member_loop fuel items 0 (keyword ++ " " ++ tp_name C ++ " {" ++ nl) st with
    | Ok (Some code) st' =>
        Ok (ptr_to PyNone)
           (with_events
              (events st' ++ [AppendPatternLanguageCode (code ++ "};" ++ nl)]) st')
    | Ok None st' => Ok nullptr st'
    | Undefined st' => Undefined st'
    | OutOfFuel => OutOfFuel
    | Exited st' => Exited st'
    end.
Proof.
  intros Hnew Hbase Hann.
  unfold createStructureType.
  cbn [PyTuple_GetItem nth_error ptr_of_option PyObject_CallObject].
  rewrite Hnew. cbn [ob_type]. rewrite Hbase.
  unfold annotations in Hann.
  destruct (tp_dict C) as [|dict]; [discriminate|].
  destruct (PyDict_GetItemString dict "__annotations__") as [|o]; [discriminate|].
  rewrite Hann. run.
  destruct (member_loop fuel items 0 _ st) as [[code|] st'|st'| |st']; reflexivity.
Qed.



(** C6, at the failing input: a class whose first annotated member has a
    type that cannot be instantiated with no argument.  [TypeError] is set,
    and the next statement dereferences the null instance: the call does
    not return.  Nothing was posted. *)
Theorem member_not_instantiable_is_dereferenced (fuel : nat) (keyword : string)
        (C : PyTypeObject) (k v : PyObject) (rest : list (PyObject * PyObject))
        (st : state P) :
  tp_new0 C = true -> not_ImHexType C = false ->
  annotations C = ptr_to ((k, v) :: rest) ->
  PyObject_CallObject v = nullptr ->
  createStructureType (S fuel) keyword [PyType C] st
  = Undefined (with_error (ptr_to member_error) st).
Proof.
  intros HC HCb Hann Hcall.
  rewrite (createStructureType_loop _ _ C _ st HC HCb Hann).
  rewrite (member_loop_null_instance _ _ 0 _ k v); [reflexivity| |reflexivity|assumption].
  unfold PyList_Size. cbn [List.length]. lia.
Qed.

End TranslatorFacts.

(** Sample classes of a loader script:
    [class Magic(ImHexType)], [class Version(ImHexType)] and
    [class Header(ImHexType): magic: Magic; version: Version]. *)
Definition Magic : PyTypeObject := mkType "Magic" (Some ImHexType) (Some []) true.
Definition Version : PyTypeObject := mkType "Version" (Some ImHexType) (Some []) true.
Definition Header (new0 : bool) : PyTypeObject :=
  guest_class "Header"
    [(PyUnicode "magic", PyType Magic); (PyUnicode "version", PyType Version)] new0.

(** The same [Magic] with a constructor that requires an argument. *)
Definition MagicWithArgument : PyTypeObject :=
  mkType "Magic" (Some ImHexType) (Some []) false.



(** C6: [class Header(ImHexType): magic: Magic], where [Magic()] raises. *)
Lemma member_not_instantiable_is_dereferenced_witness :
  let st := initial_state [x01; x02; x03] [] in
  createStructureType 1 "struct"
    [PyType (guest_class "Header" [(PyUnicode "magic", PyType MagicWithArgument)] true)]
    st
  = Undefined (with_error (ptr_to member_error) st).
Proof.
  apply (member_not_instantiable_is_dereferenced 0 "struct"
           (guest_class "Header" [(PyUnicode "magic", PyType MagicWithArgument)] true)
           (PyUnicode "magic") (PyType MagicWithArgument) []
           (initial_state [x01; x02; x03] []));
    reflexivity.
Defined.

(** ** The loop counter *)

Section LoopCounter.

Context {P : Type} `{Provider P}.





End LoopCounter.




(** ** [processFile] *)

Section LifecycleFacts.

Context {P : Type} `{Provider P}.

(** The state in which the script file is opened: the interpreter has
    its program name, perhaps its home, the [_imhex] module in the
    inittab, is initialized and has ["lib"] in front of its path. *)
Definition booted (st : state P) : state P :=
  let py := python st in
  let home :=
    if fs_exists (host st) (argv0_parent (host st) ++ "/lib/python3.8")
    then ptr_to (argv0_parent (host st)) else python_home py in
  with_python
    (mkInterpreter (ptr_to (argv0 (host st))) home (inittab py ++ ["_imhex"])
                   Initialized ("lib" :: sys_path py))
    st.

Definition finalized (st : state P) : state P :=
  let py := python st in
  with_python
    (mkInterpreter (program_name py) (python_home py) (inittab py) Finalized
                   (sys_path py))
    st.

(** [processFile] is the boot, then the file, the script, the close and
    the shutdown. *)
Lemma processFile_after_boot (fuel : nat) (scriptPath : string) (st : state P) :
  processFile fuel scriptPath st
  = match lookup scriptPath (files (host st)) with
    | None => Undefined (booted st)
    | Some s =>
        match run_script fuel s (booted st) with
        | Ok _ st' => Ok true (finalized st')
        | Undefined st' => Undefined st'
        | OutOfFuel => OutOfFuel
        | Exited st' => Exited st'
        end
    end.
Proof.
  unfold processFile, fopen, fclose, PyRun_SimpleFile, Py_SetProgramName,
    Py_SetPythonHome, PyImport_AppendInittab, Py_Initialize, Py_Finalize,
    sys_path_insert0, set_status, modify_python.
  run. unfold booted.
  destruct (fs_exists (host st) (argv0_parent (host st) ++ "/lib/python3.8"));
    cbn [host python with_python files status inittab sys_path python_home
         program_name ptr_of_option];
    destruct (lookup scriptPath (files (host st))) as [s|];
    cbn [ptr_of_option]; try reflexivity;
    match goal with
    | |- context [run_script fuel s ?st0] =>
        destruct (run_script fuel s st0) as [r st'|st'| |st']; reflexivity
    end.
Qed.

(** C1, at the failing input: when the script file cannot be opened,
    [processFile] passes the null stream on to the interpreter, which is
    undefined; the call does not return, and the interpreter it had
    initialized is not finalized. *)
Theorem processFile_unopened_script_not_finalized
        (fuel : nat) (scriptPath : string) (st : state P) :
  lookup scriptPath (files (host st)) = None ->
  exists st',
    processFile fuel scriptPath st = Undefined st' /\
    status (python st') = Initialized.
Proof.
  intros Hopen. rewrite processFile_after_boot, Hopen.
  exists (booted st). split; reflexivity.
Qed.

(** C2, at the failing input: when the script file cannot be opened,
    [processFile] reports nothing, neither failure nor success: it runs
    into undefined behaviour with the provider and the posted events as
    they were. *)
Theorem processFile_unopened_script_reports_nothing
        (fuel : nat) (scriptPath : string) (st : state P) :
  lookup scriptPath (files (host st)) = None ->
  exists st',
    processFile fuel scriptPath st = Undefined st' /\
    s_dataProvider st' = s_dataProvider st /\
    events st' = events st.
Proof.
  intros Hopen. rewrite processFile_after_boot, Hopen.
  exists (booted st). repeat split.
Qed.

(** Whenever [processFile] returns, it returns [true] and the
    interpreter is finalized. *)
Lemma processFile_returns_finalized (fuel : nat) (scriptPath : string)
      (st st' : state P) (b : bool) :
  processFile fuel scriptPath st = Ok b st' ->
  b = true /\ status (python st') = Finalized.
Proof.
  rewrite processFile_after_boot.
  destruct (lookup scriptPath (files (host st))) as [s|]; [|discriminate].
  destruct (run_script fuel s (booted st)) as [r st1|st1| |st1]; try discriminate.
  intros E. injection E as <- <-. split; reflexivity.
Qed.

(** A script that makes no call into the module, does not exit and
    does not loop: it ends normally or by an exception of its own, and
    leaves the events, the provider and the interpreter as they were. *)
Lemma run_script_without_calls (fuel : nat) (s : script) (st : state P) :
  (forall method args, ~ In (Call method args) s) ->
  ~ In Exit s ->
  ~ In Loop s ->
  exists r st',
    run_script fuel s st = Ok r st' /\
    events st' = events st /\
    s_dataProvider st' = s_dataProvider st /\
    python st' = python st.
Proof.
  intros Hcalls Hexit Hloop. destruct s as [|[method args| | |] rest].
  - eexists _, _. repeat split.
  - exfalso. apply (Hcalls method args). now left.
  - eexists _, _. repeat split.
  - exfalso. apply Hexit. now left.
  - exfalso. apply Hloop. now left.
Qed.

(** Running a script that calls no host function, does not exit the
    interpreter ([SystemExit]) and does not loop for ever, whether it ends
    normally or with an unhandled exception of its own: [processFile]
    returns [true], no event is posted and the interpreter is finalized. *)
Lemma processFile_script_without_calls (fuel : nat) (scriptPath : string)
      (s : script) (st : state P) :
  lookup scriptPath (files (host st)) = Some s ->
  (forall method args, ~ In (Call method args) s) ->
  ~ In Exit s ->
  ~ In Loop s ->
  exists st',
    processFile fuel scriptPath st = Ok true st' /\
    events st' = events st /\
    s_dataProvider st' = s_dataProvider st /\
    status (python st') = Finalized.
Proof.
  intros Hopen Hcalls Hexit Hloop. rewrite processFile_after_boot, Hopen.
  destruct (run_script_without_calls fuel s (booted st) Hcalls Hexit Hloop)
    as (r & st1 & E & Hev & Hprov & _).
  rewrite E. eexists. split; [reflexivity|].
  cbn. rewrite Hev, Hprov. repeat split.
Qed.



End LifecycleFacts.

(** C1: a path with no file behind it. *)
Lemma processFile_unopened_script_not_finalized_witness :
  exists st',
    processFile 1 "missing.py" (initial_state [x01; x02; x03] [])
    = Undefined st' /\
    status (python st') = Initialized.
Proof.
  apply (processFile_unopened_script_not_finalized 1 "missing.py"
           (initial_state [x01; x02; x03] [])).
  reflexivity.
Defined.

(** C2: the same path, next to an existing script. *)
Lemma processFile_unopened_script_reports_nothing_witness :
  let st := initial_state [x01; x02; x03]
              [("loader.py", [Call "patch" [PyLong 0; PyBytes [xff]]])] in
  exists st',
    processFile 1 "missing.py" st = Undefined st' /\
    s_dataProvider st' = s_dataProvider st /\
    events st' = events st.
Proof.
  apply (processFile_unopened_script_reports_nothing 1 "missing.py"
           (initial_state [x01; x02; x03]
              [("loader.py", [Call "patch" [PyLong 0; PyBytes [xff]]])])).
  reflexivity.
Defined.

(** ** Whole translations *)

(** The member lines of a list of accepted items, in order. *)
Fixpoint member_lines (items : list (PyObject * PyObject)) : string :=
  match items with
  | [] => EmptyString
  | (PyUnicode f, PyType t) :: rest => member_line t f ++ member_lines rest
  | _ :: rest => member_lines rest
  end.

Lemma append_empty_r (s : string) : (s ++ EmptyString)%string = s.
Proof.
  induction s as [|ch s IH]; cbn.
  - reflexivity.
  - now rewrite IH.
Qed.

Section WholeTranslations.

Context {P : Type} `{Provider P}.

(** A run of accepted items [mid] is passed one turn each, the counter
    staying below 65536: their lines are appended in order. *)
Lemma member_loop_passes (mid : list (PyObject * PyObject)) :
  forall (pre post : list (PyObject * PyObject)) (code : string) (fuel : nat)
         (st : state P),
    forallb member_ok mid = true ->
    Z.of_nat (List.length pre + List.length mid) < u16_modulus ->
    member_loop (List.length mid + fuel) (pre ++ mid ++ post)
                (Z.of_nat (List.length pre)) code st
    = member_loop fuel (pre ++ mid ++ post)
                  (Z.of_nat (List.length pre + List.length mid))
                  (code ++ member_lines mid) st.
Proof.
  induction mid as [|x mid IH]; intros pre post code fuel st Hall Hlen.
  - cbn [List.length member_lines Nat.add]. rewrite Nat.add_0_r, append_empty_r.
    reflexivity.
  - cbn [forallb] in Hall. apply andb_true_iff in Hall as [Hx Hall].
    destruct x as [[] []]; cbn in Hx; try discriminate.
    apply andb_true_iff in Hx as [Hnew Hbase]. apply negb_true_iff in Hbase.
    cbn [List.length Nat.add] in *.
    rewrite (member_loop_accepts _ _ _ _ s t); try assumption.
    + rewrite wrap_u16_small by lia.
      replace (Z.of_nat (List.length pre) + 1)
        with (Z.of_nat (List.length (pre ++ [(PyUnicode s, PyType t)])))
        by (rewrite length_app; cbn [List.length]; lia).
      replace (pre ++ ((PyUnicode s, PyType t) :: mid) ++ post)
        with ((pre ++ [(PyUnicode s, PyType t)]) ++ mid ++ post)
        by (now rewrite <- app_assoc).
      rewrite IH; [|assumption|rewrite length_app; cbn [List.length]; lia].
      cbn [member_lines]. rewrite append_assoc.
      do 2 f_equal. rewrite length_app. cbn [List.length]. lia.
    + unfold PyList_Size. rewrite !length_app. cbn [List.length]. lia.
    + unfold PyList_GetItem.
      replace (Z.of_nat (List.length pre) <? 0) with false
        by (symmetry; apply Z.ltb_ge; lia).
      rewrite Nat2Z.id, nth_error_app2, Nat.sub_diag by lia. reflexivity.
Qed.



(** A class that can be instantiated but does not extend [ImHexType]:
    [TypeError], and nothing posted. *)
Theorem createStructureType_class_rejected (fuel : nat) (keyword : string)
        (C : PyTypeObject) (st : state P) :
  tp_new0 C = true -> not_ImHexType C = true ->
  createStructureType fuel keyword [PyType C] st
  = Ok nullptr
       (with_error (ptr_to (PyExc_TypeError, "class type must extend from ImHexType")) st).
Proof.
  intros Hnew Hbase. unfold createStructureType.
  cbn [PyTuple_GetItem nth_error ptr_of_option PyObject_CallObject].
  rewrite Hnew. cbn [ob_type]. now rewrite Hbase.
Qed.

End WholeTranslations.

(** ** The bridge on sample scripts *)

Section EmptyBuffer.

Context {P : Type} `{Provider P}.

(** The test on the buffer comes before the test on the address: an empty
    buffer raises [TypeError] "Invalid patch provided" whatever the
    address, at or beyond the provider's size included, and nothing but
    the error indicator changes. *)
Theorem patch_empty_buffer_refused_first (a : Z) (st : state P) :
  Py_addPatch [PyLong a; PyBytes []] st
  = Ok nullptr (with_error (ptr_to (PyExc_TypeError, "Invalid patch provided")) st)
  /\ raises PyExc_TypeError st (Py_addPatch [PyLong a; PyBytes []] st).
Proof.
  rewrite Py_addPatch_cases. cbn [List.length Z.of_nat Z.eqb].
  split; [reflexivity|]. eexists _, _. repeat split.
Qed.

End EmptyBuffer.

Definition sample_state : state (list byte) :=
  initial_state [x01; x02; x03]
    [("loader.py", [Call "patch" [PyLong 0; PyBytes [xff]];
                    Call "add_bookmark" [PyLong 0; PyLong 2; PyUnicode "magic";
                                         PyUnicode "file signature"];
                    Call "add_struct" [PyType (Header true)]]);
     ("quiet.py", []);
     ("broken.py", [Raise])].


(** [add_bookmark(0, 2)] *)
Lemma add_bookmark_text_absent_posts_nothing_witness :
  exists e,
    Py_addBookmark [PyLong 0; PyLong 2] sample_state
    = Ok nullptr (with_error (ptr_to e) sample_state).
Proof.
  apply (add_bookmark_text_absent_posts_nothing [PyLong 0; PyLong 2] sample_state).
  cbn. lia.
Defined.

(** [broken.py], a script that ends with an exception of its own. *)
Lemma processFile_script_without_calls_witness :
  exists st',
    processFile 1 "broken.py" sample_state = Ok true st' /\
    events st' = events sample_state /\
    s_dataProvider st' = s_dataProvider sample_state /\
    status (python st') = Finalized.
Proof.
  apply (processFile_script_without_calls 1 "broken.py" [Raise] sample_state).
  - reflexivity.
  - intros method args [E|[]]. discriminate E.
  - intros [E|[]]. discriminate E.
  - intros [E|[]]. discriminate E.
Defined.

(** [loader.py], which patches a byte, adds a bookmark and a struct. *)
Lemma processFile_returns_finalized_witness :
  exists b st',
    processFile 3 "loader.py" sample_state = Ok b st' /\
    b = true /\ status (python st') = Finalized.
Proof.
  eexists _, _. split; [vm_compute; reflexivity|].
  apply (processFile_returns_finalized 3 "loader.py" sample_state).
  vm_compute. reflexivity.
Defined.


(** [add_union(int)] *)
Lemma createStructureType_class_rejected_witness :
  createStructureType 1 "union" [PyType (builtin_type "int" true)] sample_state
  = Ok nullptr
       (with_error (ptr_to (PyExc_TypeError, "class type must extend from ImHexType"))
                   sample_state).
Proof.
  apply (createStructureType_class_rejected 1 "union" (builtin_type "int" true)
           sample_state);
    reflexivity.
Defined.


(** ** Every argument tuple *)

(** The tuples [PyArg_ParseTuple] accepts for the two formats of the
    bridge, with what it stores. *)
Lemma parse_patch_inv (args : list PyObject) (outs : list cvalue) :
  PyArg_ParseTuple args "K|y#" = Some outs ->
  (exists a, args = [PyLong a] /\ outs = [CInt (wrap_u64 a)]) \/
  (exists a bs,
      args = [PyLong a; PyBytes bs] /\
      outs = [CInt (wrap_u64 a); CBuf bs; CInt (Z.of_nat (List.length bs))]).
Proof.
  intros Hparse.
  destruct args as [|x [|y [|z rest]]].
  - discriminate Hparse.
  - destruct x; try discriminate Hparse.
    left. eexists. split; [reflexivity|].
    rewrite parse_patch_address_only in Hparse. now injection Hparse as <-.
  - destruct x; try discriminate Hparse;
      destruct y; try discriminate Hparse.
    right. eexists _, _. split; [reflexivity|].
    rewrite parse_patch_buffer in Hparse. now injection Hparse as <-.
  - discriminate Hparse.
Qed.

Lemma parse_bookmark_inv (args : list PyObject) (outs : list cvalue) :
  PyArg_ParseTuple args "K|n|s|s" = Some outs ->
  (exists a s n,
      args = [PyLong a; PyLong s; PyUnicode n] /\
      fits_ssize_t s = true /\ has_nul n = false /\
      outs = [CInt (wrap_u64 a); CInt s; CStr n]) \/
  (exists a s n c,
      args = [PyLong a; PyLong s; PyUnicode n; PyUnicode c] /\
      fits_ssize_t s = true /\ has_nul n = false /\ has_nul c = false /\
      outs = [CInt (wrap_u64 a); CInt s; CStr n; CStr c]).
Proof.
  intros Hparse.
  destruct args as [|x [|y [|z [|w [|v rest]]]]]; try discriminate Hparse.
  - destruct x; try discriminate Hparse;
      destruct y; try discriminate Hparse.
    destruct z;
      try (exfalso; revert Hparse; cbv -[wrap_u64 fits_ssize_t has_nul];
           repeat match goal with
                  | |- context [fits_ssize_t ?s] => destruct (fits_ssize_t s)
                  | |- context [has_nul ?s] => destruct (has_nul s)
                  end; discriminate).
    rewrite parse_bookmark_three in Hparse.
    destruct (fits_ssize_t z1) eqn:Hfits; [|discriminate].
    destruct (has_nul s) eqn:Hn; [discriminate|].
    left. eexists _, _, _. repeat split; [exact Hfits|exact Hn|].
    now injection Hparse as <-.
  - destruct x; try discriminate Hparse;
      destruct y; try discriminate Hparse.
    destruct z, w;
      try (exfalso; revert Hparse; cbv -[wrap_u64 fits_ssize_t has_nul];
           repeat match goal with
                  | |- context [fits_ssize_t ?s] => destruct (fits_ssize_t s)
                  | |- context [has_nul ?s] => destruct (has_nul s)
                  end; discriminate).
    rewrite parse_bookmark_four in Hparse.
    destruct (fits_ssize_t z1) eqn:Hfits; [|discriminate].
    destruct (has_nul s) eqn:Hn; [discriminate|].
    destruct (has_nul s0) eqn:Hc; [discriminate|].
    right. eexists _, _, _, _. repeat split; [exact Hfits|exact Hn|exact Hc|].
    now injection Hparse as <-.
Qed.

Section PatchOnEveryTuple.

Context {P : Type} `{Provider P}.

Lemma patch_address_only (a : Z) (st : state P) :
  Py_addPatch [PyLong a] st = Undefined st.
Proof. unfold Py_addPatch. rewrite parse_patch_address_only. reflexivity. Qed.

Lemma wrap_u64_range (z : Z) : 0 <= wrap_u64 z < u64_modulus.
Proof. unfold wrap_u64, u64_modulus. apply Z.mod_pos_bound. lia. Qed.

(** Whatever the arguments, a [patch] that returns has posted nothing, and
    has either raised (the provider as it was) or done one write of a
    non-empty buffer at an address below the provider's size. *)
Theorem patch_writes_in_range_only (args : list PyObject) (st st' : state P)
        (r : ptr PyObject) :
  Py_addPatch args st = Ok r st' ->
  events st' = events st /\
  ((r = nullptr /\ exists e, st' = with_error (ptr_to e) st) \/
   (exists a bs,
       args = [PyLong a; PyBytes bs] /\ bs <> [] /\
       0 <= wrap_u64 a < getActualSize (s_dataProvider st) /\
       r = ptr_to PyNone /\
       st' = with_provider
               (write (s_dataProvider st) (wrap_u64 a) bs (Z.of_nat (List.length bs)))
               st)).
Proof.
  intros Hcall.
  destruct (PyArg_ParseTuple args "K|y#") as [outs|] eqn:Hparse.
  - destruct (parse_patch_inv args outs Hparse) as [(a & -> & _)|(a & bs & -> & _)].
    + rewrite patch_address_only in Hcall. discriminate.
    + rewrite Py_addPatch_cases in Hcall.
      destruct (Z.of_nat (List.length bs) =? 0) eqn:Hlen.
      * injection Hcall as <- <-. split; [reflexivity|]. left.
        split; [reflexivity|]. eexists. reflexivity.
      * destruct (wrap_u64 a >=? getActualSize (s_dataProvider st)) eqn:Hge;
          injection Hcall as <- <-; (split; [reflexivity|]).
        -- left. split; [reflexivity|]. eexists. reflexivity.
        -- right. exists a, bs. repeat split.
           ++ intros ->. cbn in Hlen. discriminate.
           ++ apply wrap_u64_range.
           ++ rewrite Z.geb_leb in Hge. apply Z.leb_gt in Hge. exact Hge.
  - unfold Py_addPatch in Hcall. rewrite Hparse in Hcall.
    injection Hcall as <- <-. split; [reflexivity|]. left.
    split; [reflexivity|]. eexists. reflexivity.
Qed.

End PatchOnEveryTuple.

Section MalformedAndWrapped.

Context {P : Type} `{Provider P}.

(** Any tuple other than an integer alone or an integer and a [bytes]
    (no argument, a third argument, a text as buffer, a text as address)
    is an argument error, and nothing else changes. *)
Theorem patch_malformed_arguments (args : list PyObject) (st : state P) :
  (forall a, args <> [PyLong a]) ->
  (forall a bs, args <> [PyLong a; PyBytes bs]) ->
  Py_addPatch args st = Ok nullptr (with_error (ptr_to bad_argument) st).
Proof.
  intros Hone Htwo. unfold Py_addPatch.
  destruct (PyArg_ParseTuple args "K|y#") as [outs|] eqn:Hparse; [|reflexivity].
  exfalso.
  destruct (parse_patch_inv args outs Hparse) as [(a & Hargs & _)|(a & bs & Hargs & _)].
  - exact (Hone a Hargs).
  - exact (Htwo a bs Hargs).
Qed.

(** The address is not checked against the 64 bits it is stored in: an
    integer outside them is reduced modulo 2^64, so [patch(a + k * 2^64,
    b)] is [patch(a, b)]. *)
Theorem patch_address_modulo_u64 (a k : Z) (b : list byte) (st : state P) :
  Py_addPatch [PyLong (a + k * u64_modulus); PyBytes b] st
  = Py_addPatch [PyLong a; PyBytes b] st.
Proof.
  rewrite !Py_addPatch_cases.
  replace (wrap_u64 (a + k * u64_modulus)) with (wrap_u64 a); [reflexivity|].
  unfold wrap_u64, u64_modulus. symmetry. apply Z.mod_add. lia.
Qed.

(** [add_bookmark] returns on every argument tuple; it never touches the
    provider; it raises and posts nothing, or posts exactly one bookmark
    and sets no exception. *)
Theorem add_bookmark_always_returns (args : list PyObject) (st : state P) :
  (exists e, Py_addBookmark args st = Ok nullptr (with_error (ptr_to e) st)) \/
  (exists b,
      Py_addBookmark args st
      = Ok (ptr_to PyNone) (with_events (events st ++ [AddBookmark b]) st)).
Proof.
  destruct (PyArg_ParseTuple args "K|n|s|s") as [outs|] eqn:Hparse.
  - destruct (parse_bookmark_inv args outs Hparse)
      as [(a & s & n & -> & _)|(a & s & n & c & -> & Hfits & Hn & Hc & _)].
    + left. eexists. apply Py_addBookmark_three.
    + right. eexists. rewrite Py_addBookmark_cases, Hfits, Hn, Hc. reflexivity.
  - left. eexists. unfold Py_addBookmark. rewrite Hparse. reflexivity.
Qed.


End MalformedAndWrapped.

(** ** What a translation can do to the state *)

Section TranslatorFrame.

Context {P : Type} `{Provider P}.

(** The loop leaves the state alone, but for the exception of a member
    it does not accept; the text it yields extends the text it was given. *)
Lemma member_loop_outcome (fuel : nat) :
  forall (items : list (PyObject * PyObject)) (i : Z) (code : string) (st : state P),
    match member_loop fuel items i code st with
    | Ok (Some c) st' => st' = st /\ exists suffix, c = (code ++ suffix)%string
    | Ok None st' => st' = with_error (ptr_to member_error) st
    | Undefined st' => st' = st \/ st' = with_error (ptr_to member_error) st
    | OutOfFuel => True
    | Exited _ => False
    end.
Proof.
  induction fuel as [|fuel IH]; intros items i code st; [exact I|].
  cbn [member_loop]. destruct (i <? PyList_Size items).
  - run. destruct (PyList_GetItem items i) as [|[k v]]; [now left|].
    cbn [fst snd].
    destruct (PyUnicode_AsUTF8 k) as [|f]; cbn [call_while_pending]; [now right|].
    destruct (PyObject_CallObject v) as [|inst]; [now right|].
    destruct (not_ImHexType (ob_type inst)); [reflexivity|].
    specialize (IH items (wrap_u16 (i + 1))
                   (code ++ ("   " ++ tp_name (ob_type inst) ++ " " ++ c_str f
                             ++ ";" ++ nl))%string
                   st).
    destruct (member_loop fuel items _ _ st) as [[c|] st'|st'| |st']; try exact IH.
    destruct IH as [-> [suffix ->]]. split; [reflexivity|].
    eexists. apply append_assoc.
  - split; [reflexivity|]. exists EmptyString. symmetry. apply append_empty_r.
Qed.

(** A text put in front of the text the loop starts from stays in front
    of the text it yields, and changes nothing else. *)
Lemma member_loop_prefix (p : string) (fuel : nat) :
  forall (items : list (PyObject * PyObject)) (i : Z) (code : string) (st : state P),
    member_loop fuel items i (p ++ code) st
    = match member_loop fuel items i code st with
      | Ok (Some c) st' => Ok (Some (p ++ c)%string) st'
      | o => o
      end.
Proof.
  induction fuel as [|fuel IH]; intros items i code st; [reflexivity|].
  cbn [member_loop]. destruct (i <? PyList_Size items); [|reflexivity].
  run. destruct (PyList_GetItem items i) as [|[k v]]; [reflexivity|].
  cbn [fst snd].
  destruct (PyUnicode_AsUTF8 k) as [|f]; cbn [call_while_pending]; [reflexivity|].
  destruct (PyObject_CallObject v) as [|inst]; [reflexivity|].
  destruct (not_ImHexType (ob_type inst)); [reflexivity|].
  rewrite append_assoc. apply IH.
Qed.

(** With 65536 items or more the counter is below the length at every
    test, so the loop never yields a finished text. *)
Lemma member_loop_never_finishes (fuel : nat) :
  forall (items : list (PyObject * PyObject)) (i : Z) (code c : string)
         (st st' : state P),
    u16_modulus <= PyList_Size items ->
    0 <= i < u16_modulus ->
    member_loop fuel items i code st <> Ok (Some c) st'.
Proof.
  induction fuel as [|fuel IH]; intros items i code c st st' Hsize Hi;
    [discriminate|].
  cbn [member_loop].
  replace (i <? PyList_Size items) with true by (symmetry; apply Z.ltb_lt; lia).
  run. destruct (PyList_GetItem items i) as [|[k v]]; [discriminate|].
  cbn [fst snd].
  destruct (PyUnicode_AsUTF8 k) as [|f]; cbn [call_while_pending]; [discriminate|].
  destruct (PyObject_CallObject v) as [|inst]; [discriminate|].
  destruct (not_ImHexType (ob_type inst)); [discriminate|].
  apply IH; [exact Hsize|apply wrap_u16_range].
Qed.

Lemma skipn_nth_error {A} (l : list A) (n : nat) (x : A) :
  nth_error l n = Some x -> skipn n l = x :: skipn (S n) l.
Proof.
  revert l. induction n as [|n IH]; intros [|y l] Hnth; try discriminate.
  - now injection Hnth as ->.
  - cbn [nth_error] in Hnth. cbn [skipn]. now apply IH.
Qed.

(** A finished text means that every item from the counter on was
    accepted, and the text is the one the loop started from with their
    lines in order. *)
Lemma member_loop_finished (fuel : nat) :
  forall (items : list (PyObject * PyObject)) (i : Z) (code c : string)
         (st st' : state P),
    0 <= i < u16_modulus ->
    i <= PyList_Size items ->
    member_loop fuel items i code st = Ok (Some c) st' ->
    forallb member_ok (skipn (Z.to_nat i) items) = true /\
    c = (code ++ member_lines (skipn (Z.to_nat i) items))%string.
Proof.
  induction fuel as [|fuel IH]; intros items i code c st st' Hi Hle Hrun;
    [discriminate|].
  cbn [member_loop] in Hrun. destruct (i <? PyList_Size items) eqn:Hlt.
  - apply Z.ltb_lt in Hlt. revert Hrun. run. unfold PyList_GetItem.
    replace (i <? 0) with false by (symmetry; apply Z.ltb_ge; lia).
    destruct (nth_error items (Z.to_nat i)) as [[k v]|] eqn:Hnth;
      cbn [ptr_of_option]; [|discriminate].
    cbn [fst snd].
    destruct k as [| |f| | | |]; cbn [PyUnicode_AsUTF8 call_while_pending];
      try discriminate.
    destruct v as [| | | | |t|]; cbn [PyObject_CallObject]; try discriminate.
    destruct (tp_new0 t) eqn:Hnew; [|discriminate].
    cbn [ob_type]. destruct (not_ImHexType t) eqn:Hbase; [discriminate|].
    intros Hrun.
    destruct (Z.eq_dec (i + 1) u16_modulus) as [Hwrap|Hwrap].
    + exfalso. revert Hrun. apply member_loop_never_finishes; [lia|].
      apply wrap_u16_range.
    + rewrite wrap_u16_small in Hrun by lia.
      apply IH in Hrun; [|lia..].
      replace (Z.to_nat (i + 1)) with (S (Z.to_nat i)) in Hrun by lia.
      rewrite (skipn_nth_error items _ _ Hnth).
      destruct Hrun as [Hall ->]. split.
      * cbn [forallb member_ok]. rewrite Hnew, Hbase. exact Hall.
      * cbn [member_lines]. unfold member_line. now rewrite append_assoc.
  - apply Z.ltb_ge in Hlt. injection Hrun as <- _.
    rewrite skipn_all2 by (unfold PyList_Size in *; lia).
    split; [reflexivity|]. symmetry. apply append_empty_r.
Qed.

(** A translation posts a whole declaration or nothing.  When it returns,
    either it has raised and changed nothing but the error indicator, or
    its first argument is a class with an annotation mapping whose items
    were all accepted, and it has posted one event and changed nothing
    else: the keyword, the name of that class, and between the opening and
    the closing line the lines of these items in order.  When it runs into
    undefined behaviour, nothing was posted or written.  It never ends the
    process. *)
Theorem createStructureType_posts_whole_or_nothing
        (fuel : nat) (keyword : string) (args : list PyObject) (st : state P) :
  match createStructureType fuel keyword args st with
  | Ok r st' =>
      (r = nullptr /\ exists e, st' = with_error (ptr_to e) st) \/
      (r = ptr_to PyNone /\
       exists C items,
         PyTuple_GetItem args 0 = ptr_to (PyType C) /\
         annotations C = ptr_to items /\
         forallb member_ok items = true /\
         st' = with_events
                 (events st ++
                  [AppendPatternLanguageCode
                     ((keyword ++ " " ++ tp_name C ++ " {" ++ nl)
                      ++ member_lines items ++ "};" ++ nl)])
                 st)
  | Undefined st' =>
      events st' = events st /\ s_dataProvider st' = s_dataProvider st
  | OutOfFuel => True
  | Exited _ => False
  end.
Proof.
  unfold createStructureType.
  destruct (PyTuple_GetItem args 0) as [|type]; [left; split; [|eexists]; reflexivity|].
  destruct type as [| | | | |C|]; cbn [PyObject_CallObject];
    try (left; split; [|eexists]; reflexivity).
  destruct (tp_new0 C); [|left; split; [|eexists]; reflexivity].
  cbn [ob_type].
  destruct (not_ImHexType C);
    [left; split; [|eexists]; reflexivity|].
  destruct (tp_dict C) as [|dict] eqn:Hdict;
    [left; split; [|eexists]; reflexivity|].
  destruct (PyDict_GetItemString dict "__annotations__") as [|ann] eqn:Hget;
    [left; split; [|eexists]; reflexivity|].
  destruct (PyDict_Items ann) as [|items] eqn:Hitems;
    [left; split; [|eexists]; reflexivity|].
  assert (Hann : annotations C = ptr_to items)
    by (unfold annotations; rewrite Hdict, Hget; exact Hitems).
  run.
  pose proof (member_loop_outcome fuel items 0
                (keyword ++ " " ++ tp_name C ++ " {" ++ nl) st)
    as Hloop.
  destruct (member_loop fuel items 0 _ st) as [[c|] st'|st'| |st'] eqn:Hrun.
  - destruct Hloop as [-> _]. right. split; [reflexivity|].
    exists C, items.
    apply member_loop_finished in Hrun;
      [|unfold u16_modulus; lia|unfold PyList_Size; lia].
    cbn [Z.to_nat skipn] in Hrun. destruct Hrun as [Hall ->].
    repeat split; try assumption. now rewrite append_assoc.
  - left. split; [reflexivity|]. eexists. exact Hloop.
  - destruct Hloop as [->| ->]; split; reflexivity.
  - exact I.
  - exact Hloop.
Qed.

(** [add_union] is [add_struct] with the other keyword: they return,
    raise, run into undefined behaviour or keep running on the same
    arguments, and the two texts they post differ in the keyword only. *)
Theorem add_union_is_add_struct_with_keyword
        (fuel : nat) (args : list PyObject) (st : state P) :
  match Py_addStruct fuel args st with
  | Ok (ptr_to r) st1 =>
      exists rest,
        st1 = with_events
                (events st ++ [AppendPatternLanguageCode ("struct" ++ rest)]) st /\
        Py_addUnion fuel args st
        = Ok (ptr_to r)
             (with_events
                (events st ++ [AppendPatternLanguageCode ("union" ++ rest)]) st)
  | Ok nullptr st1 => Py_addUnion fuel args st = Ok nullptr st1
  | Undefined st1 => Py_addUnion fuel args st = Undefined st1
  | OutOfFuel => Py_addUnion fuel args st = OutOfFuel
  | Exited st1 => Py_addUnion fuel args st = Exited st1
  end.
Proof.
  unfold Py_addStruct, Py_addUnion, createStructureType.
  destruct (PyTuple_GetItem args 0) as [|type]; [reflexivity|].
  destruct (PyObject_CallObject type) as [|instance]; [reflexivity|].
  destruct (not_ImHexType (ob_type instance)); [reflexivity|].
  destruct (tp_dict (ob_type instance)) as [|dict]; [reflexivity|].
  destruct (PyDict_GetItemString dict "__annotations__") as [|ann]; [reflexivity|].
  destruct (PyDict_Items ann) as [|items]; [reflexivity|].
  run. rewrite (member_loop_prefix "struct"), (member_loop_prefix "union").
  pose proof (member_loop_outcome fuel items 0
                (" " ++ tp_name (ob_type instance) ++ " {" ++ nl) st) as Hloop.
  destruct (member_loop fuel items 0 _ st) as [[c|] st'|st'| |st']; try reflexivity.
  destruct Hloop as [-> _].
  exists (c ++ "};" ++ nl)%string. now rewrite !append_assoc.
Qed.

End TranslatorFrame.

Section TranslatorEdges.

Context {P : Type} `{Provider P}.

(** A class without an annotation mapping (no [__annotations__] in its
    dictionary, or one that is not a dictionary) is an argument error;
    nothing is posted. *)
Theorem createStructureType_without_annotations (fuel : nat) (keyword : string)
        (C : PyTypeObject) (st : state P) :
  tp_new0 C = true -> not_ImHexType C = false ->
  annotations C = nullptr ->
  createStructureType fuel keyword [PyType C] st
  = Ok nullptr (with_error (ptr_to bad_argument) st).
Proof.
  intros Hnew Hbase Hann. unfold createStructureType.
  cbn [PyTuple_GetItem nth_error ptr_of_option PyObject_CallObject].
  rewrite Hnew. cbn [ob_type]. rewrite Hbase.
  unfold annotations in Hann.
  destruct (tp_dict C) as [|dict]; [reflexivity|].
  destruct (PyDict_GetItemString dict "__annotations__") as [|o]; [reflexivity|].
  now rewrite Hann.
Qed.

(** A member whose type cannot be called with no argument, after accepted
    members only and within the first 65536: the exception is set and the
    null instance dereferenced, so the call does not return; nothing was
    posted or written. *)
Theorem createStructureType_member_null_instance (fuel : nat) (keyword : string)
        (C : PyTypeObject) (k v : PyObject)
        (before after : list (PyObject * PyObject)) (st : state P) :
  tp_new0 C = true -> not_ImHexType C = false ->
  annotations C = ptr_to (before ++ (k, v) :: after) ->
  forallb member_ok before = true ->
  PyList_Size before < u16_modulus ->
  PyObject_CallObject v = nullptr ->
  (List.length before < fuel)%nat ->
  createStructureType fuel keyword [PyType C] st
  = Undefined (with_error (ptr_to member_error) st).
Proof.
  intros Hnew Hbase Hann Hall Hsize Hcall Hfuel.
  rewrite (createStructureType_loop _ _ C _ st Hnew Hbase Hann).
  replace fuel with (List.length before + S (fuel - S (List.length before)))%nat
    by lia.
  pose proof (member_loop_passes before [] ((k, v) :: after)
                (keyword ++ " " ++ tp_name C ++ " {" ++ nl)
                (S (fuel - S (List.length before))) st Hall) as Hpass.
  cbn [app List.length Nat.add] in Hpass.
  change (Z.of_nat 0) with 0 in Hpass.
  rewrite Hpass by exact Hsize.
  rewrite (member_loop_null_instance _ _ _ _ k v); try assumption.
  - reflexivity.
  - unfold PyList_Size. rewrite length_app. cbn [List.length]. lia.
  - unfold PyList_GetItem.
    replace (Z.of_nat (List.length before) <? 0) with false
      by (symmetry; apply Z.ltb_ge; lia).
    rewrite Nat2Z.id, nth_error_app2, Nat.sub_diag by lia. reflexivity.
Qed.

End TranslatorEdges.

(** ** The interpreter around the host calls *)

Section Setting.

Context {P : Type} `{Provider P}.

(** The outcome left the script path, the interpreter and the host as
    they were in [st]. *)
Definition keeps_setting {A} (st : state P) (o : outcome P A) : Prop :=
  match o with
  | Ok _ st' | Undefined st' =>
      s_filePath st' = s_filePath st /\ python st' = python st /\ host st' = host st
  | OutOfFuel => True
  | Exited st' => s_filePath st' = s_filePath st /\ host st' = host st
  end.

Lemma Py_getFilePath_keeps (args : list PyObject) (st : state P) :
  keeps_setting st (Py_getFilePath args st).
Proof. repeat split. Qed.

Lemma Py_addPatch_keeps (args : list PyObject) (st : state P) :
  keeps_setting st (Py_addPatch args st).
Proof.
  destruct (PyArg_ParseTuple args "K|y#") as [outs|] eqn:Hparse.
  - destruct (parse_patch_inv args outs Hparse) as [(a & -> & _)|(a & bs & -> & _)].
    + rewrite patch_address_only. repeat split.
    + rewrite Py_addPatch_cases.
      destruct (Z.of_nat (List.length bs) =? 0); [repeat split|].
      destruct (wrap_u64 a >=? getActualSize (s_dataProvider st)); repeat split.
  - unfold Py_addPatch. rewrite Hparse. repeat split.
Qed.

Lemma Py_addBookmark_keeps (args : list PyObject) (st : state P) :
  keeps_setting st (Py_addBookmark args st).
Proof.
  destruct (PyArg_ParseTuple args "K|n|s|s") as [outs|] eqn:Hparse.
  - destruct (parse_bookmark_inv args outs Hparse)
      as [(a & s & n & -> & Hfits & _)|(a & s & n & c & -> & Hfits & _)].
    + rewrite Py_addBookmark_three. repeat split.
    + rewrite Py_addBookmark_cases, Hfits. destruct (_ && _); repeat split.
  - unfold Py_addBookmark. rewrite Hparse. repeat split.
Qed.

Lemma createStructureType_keeps (fuel : nat) (keyword : string)
      (args : list PyObject) (st : state P) :
  keeps_setting st (createStructureType fuel keyword args st).
Proof.
  unfold createStructureType.
  destruct (PyTuple_GetItem args 0) as [|type]; [repeat split|].
  destruct (PyObject_CallObject type) as [|instance]; [repeat split|].
  destruct (not_ImHexType (ob_type instance)); [repeat split|].
  destruct (tp_dict (ob_type instance)) as [|dict]; [repeat split|].
  destruct (PyDict_GetItemString dict "__annotations__") as [|ann]; [repeat split|].
  destruct (PyDict_Items ann) as [|items]; [repeat split|].
  run.
  pose proof (member_loop_outcome fuel items 0
                (keyword ++ " " ++ tp_name (ob_type instance) ++ " {" ++ nl) st)
    as Hloop.
  destruct (member_loop fuel items 0 _ st) as [[c|] st'|st'| |st'].
  - destruct Hloop as [-> _]. repeat split.
  - rewrite Hloop. repeat split.
  - destruct Hloop as [->| ->]; repeat split.
  - exact I.
  - destruct Hloop.
Qed.

(** Every function of the method table keeps the setting, called as the
    interpreter calls it. *)
Lemma ImHexMethods_keep (fuel : nat) (method : string)
      (f : list PyObject -> M (ptr PyObject)) (flags : meth_flags)
      (args : list PyObject) (st : state P) :
  lookup method (ImHexMethods fuel) = Some (f, flags) ->
  keeps_setting st (call_method method f flags args st).
Proof.
  unfold ImHexMethods. cbn [lookup].
  repeat match goal with
         | |- context [String.eqb ?k method] => destruct (String.eqb k method)
         end;
    try discriminate; intros E; injection E as <- <-; cbn [call_method].
  - destruct args; repeat split.
  - apply Py_addPatch_keeps.
  - apply Py_addBookmark_keeps.
  - apply createStructureType_keeps.
  - apply createStructureType_keeps.
Qed.

Lemma run_script_keeps (fuel : nat) (s : script) :
  forall st : state P, keeps_setting st (run_script fuel s st).
Proof.
  induction s as [|[method args| | |] rest IH]; intros st.
  - repeat split.
  - cbn [run_script]. run.
    destruct (negb (existsb (String.eqb "_imhex") (inittab (python st))));
      [repeat split|].
    destruct (lookup method (ImHexMethods fuel)) as [[f flags]|] eqn:Hf;
      [|repeat split].
    pose proof (ImHexMethods_keep fuel method f flags args st Hf) as Hcall.
    destruct (call_method method f flags args st) as [r st1|st1| |st1];
      [|exact Hcall|exact I|exact Hcall].
    destruct Hcall as (Hpath & Hpy & Hhost).
    destruct r as [|r]; cbn [is_null].
    + repeat split; assumption.
    + specialize (IH st1).
      destruct (run_script fuel rest st1) as [r' st2|st2| |st2]; [| |exact I|].
      * destruct IH as (Hpath' & Hpy' & Hhost'); repeat split; congruence.
      * destruct IH as (Hpath' & Hpy' & Hhost'); repeat split; congruence.
      * destruct IH as (Hpath' & Hhost'); repeat split; congruence.
  - repeat split.
  - repeat split.
  - exact I.
Qed.

(** When [processFile] returns, the interpreter has the program name
    [argv[0]], its home moved to the directory of the executable exactly
    when [lib/python3.8] exists there, and is finalized; whatever the
    script did, the script path and the host are as they were. *)
Theorem processFile_configuration (fuel : nat) (scriptPath : string)
        (st st' : state P) (b : bool) :
  processFile fuel scriptPath st = Ok b st' ->
  program_name (python st') = ptr_to (argv0 (host st)) /\
  python_home (python st')
  = (if fs_exists (host st) (argv0_parent (host st) ++ "/lib/python3.8")
     then ptr_to (argv0_parent (host st)) else python_home (python st)) /\
  status (python st') = Finalized /\
  s_filePath st' = s_filePath st /\
  host st' = host st.
Proof.
  rewrite processFile_after_boot.
  destruct (lookup scriptPath (files (host st))) as [s|]; [|discriminate].
  pose proof (run_script_keeps fuel s (booted st)) as Hkeep.
  destruct (run_script fuel s (booted st)) as [r st1|st1| |st1]; try discriminate.
  intros E. injection E as <- <-.
  destruct Hkeep as (Hpath & Hpy & Hhost).
  cbn. rewrite Hpy, Hpath, Hhost. repeat split.
Qed.

End Setting.

Section ScriptsThroughProcessFile.

Context {P : Type} `{Provider P}.

Lemma booted_has_module (st : state P) :
  existsb (String.eqb "_imhex") (inittab (python (booted st))) = true.
Proof.
  unfold booted. cbn [python with_python inittab].
  rewrite existsb_app. cbn. apply orb_true_r.
Qed.

(** Calls of [get_file_path()], however many, run to the end of the
    script and leave the state as it was. *)
Lemma run_script_file_path_queries (fuel : nat) (s : script) (st : state P) :
  existsb (String.eqb "_imhex") (inittab (python st)) = true ->
  Forall (fun stmt => stmt = Call "get_file_path" []) s ->
  run_script fuel s st = Ok 0 st.
Proof.
  intros Hmod Hall. induction Hall as [|stmt rest -> _ IH].
  - reflexivity.
  - cbn [run_script]. run. rewrite Hmod. cbn [negb lookup ImHexMethods String.eqb].
    cbn. exact IH.
Qed.

(** A script that only asks for the file path: [processFile] returns
    [true] with the interpreter finalized; nothing is written or posted
    and no exception is left set. *)
Theorem processFile_file_path_queries_only (fuel : nat) (scriptPath : string)
        (s : script) (st : state P) :
  lookup scriptPath (files (host st)) = Some s ->
  Forall (fun stmt => stmt = Call "get_file_path" []) s ->
  exists st',
    processFile fuel scriptPath st = Ok true st' /\
    status (python st') = Finalized /\
    s_dataProvider st' = s_dataProvider st /\
    events st' = events st /\
    error st' = error st.
Proof.
  intros Hopen Hall. rewrite processFile_after_boot, Hopen.
  rewrite (run_script_file_path_queries fuel s (booted st)
             (booted_has_module st) Hall).
  eexists. repeat split.
Qed.

(** A script of one [patch(a, b)] with a non-empty buffer: [processFile]
    returns [true] with the interpreter finalized and nothing posted,
    whether the patch was written (the address below the provider's size:
    the write is in the provider afterwards) or raised the range error
    (the provider as it was). *)
Theorem processFile_single_patch (fuel : nat) (scriptPath : string)
        (a : Z) (b : list byte) (st : state P) :
  lookup scriptPath (files (host st)) = Some [Call "patch" [PyLong a; PyBytes b]] ->
  0 <= a < u64_modulus ->
  b <> [] ->
  exists st',
    processFile fuel scriptPath st = Ok true st' /\
    status (python st') = Finalized /\
    events st' = events st /\
    s_dataProvider st'
    = if a <? getActualSize (s_dataProvider st)
      then write (s_dataProvider st) a b (Z.of_nat (List.length b))
      else s_dataProvider st.
Proof.
  intros Hopen Ha Hb. rewrite processFile_after_boot, Hopen.
  cbn [run_script]. run. rewrite booted_has_module.
  cbn [negb lookup ImHexMethods String.eqb Ascii.eqb Bool.eqb andb call_method].
  cbv beta iota.
  rewrite Py_addPatch_cases, (length_nonzero b Hb), (wrap_u64_small a Ha).
  change (s_dataProvider (booted st)) with (s_dataProvider st).
  rewrite Z.geb_leb.
  destruct (a <? getActualSize (s_dataProvider st)) eqn:Hlt.
  - apply Z.ltb_lt in Hlt.
    replace (getActualSize (s_dataProvider st) <=? a) with false
      by (symmetry; apply Z.leb_gt; exact Hlt).
    eexists. repeat split.
  - apply Z.ltb_ge in Hlt.
    replace (getActualSize (s_dataProvider st) <=? a) with true
      by (symmetry; apply Z.leb_le; exact Hlt).
    eexists. repeat split.
Qed.

End ScriptsThroughProcessFile.

(** ** More sample runs *)

Definition script_state : state (list byte) :=
  initial_state [x01; x02; x03]
    [("paths.py", [Call "get_file_path" []; Call "get_file_path" []]);
     ("patch.py", [Call "patch" [PyLong 1; PyBytes [xff]]])].

(** [class Empty(ImHexType): pass] *)
Definition Empty : PyTypeObject := mkType "Empty" (Some ImHexType) (Some []) true.

(** [patch(1, b"\xff")] on the three bytes. *)
Lemma patch_writes_in_range_only_witness :
  let st := sample_state in
  let st' := with_provider (write (s_dataProvider st) 1 [xff] 1) st in
  events st' = events st /\
  ((ptr_to PyNone = nullptr /\ exists e, st' = with_error (ptr_to e) st) \/
   (exists a bs,
       [PyLong 1; PyBytes [xff]] = [PyLong a; PyBytes bs] /\ bs <> [] /\
       0 <= wrap_u64 a < getActualSize (s_dataProvider st) /\
       ptr_to PyNone = ptr_to PyNone /\
       st' = with_provider
               (write (s_dataProvider st) (wrap_u64 a) bs (Z.of_nat (List.length bs)))
               st)).
Proof.
  apply (patch_writes_in_range_only [PyLong 1; PyBytes [xff]] sample_state
           (with_provider (write (s_dataProvider sample_state) 1 [xff] 1) sample_state)
           (ptr_to PyNone)).
  reflexivity.
Defined.

(** [patch(0, "text")] *)
Lemma patch_malformed_arguments_witness :
  Py_addPatch [PyLong 0; PyUnicode "text"] sample_state
  = Ok nullptr (with_error (ptr_to bad_argument) sample_state).
Proof.
  apply (patch_malformed_arguments [PyLong 0; PyUnicode "text"] sample_state).
  - intros a. discriminate.
  - intros a bs. discriminate.
Defined.


(** [add_struct(Empty)] *)
Lemma createStructureType_without_annotations_witness :
  createStructureType 1 "struct" [PyType Empty] sample_state
  = Ok nullptr (with_error (ptr_to bad_argument) sample_state).
Proof.
  apply (createStructureType_without_annotations 1 "struct" Empty sample_state);
    reflexivity.
Defined.

(** [class Header(ImHexType): version: Version; magic: Magic], where
    [Magic()] raises. *)
Lemma createStructureType_member_null_instance_witness :
  createStructureType 2 "struct"
    [PyType (guest_class "Header"
               [(PyUnicode "version", PyType Version);
                (PyUnicode "magic", PyType MagicWithArgument)] true)]
    sample_state
  = Undefined (with_error (ptr_to member_error) sample_state).
Proof.
  apply (createStructureType_member_null_instance 2 "struct"
           (guest_class "Header"
              [(PyUnicode "version", PyType Version);
               (PyUnicode "magic", PyType MagicWithArgument)] true)
           (PyUnicode "magic") (PyType MagicWithArgument)
           [(PyUnicode "version", PyType Version)] [] sample_state);
    solve [reflexivity | cbn; lia].
Defined.

(** [quiet.py] *)
Lemma processFile_configuration_witness :
  let st := sample_state in
  let st' := finalized (booted sample_state) in
  program_name (python st') = ptr_to (argv0 (host st)) /\
  python_home (python st')
  = (if fs_exists (host st) (argv0_parent (host st) ++ "/lib/python3.8")
     then ptr_to (argv0_parent (host st)) else python_home (python st)) /\
  status (python st') = Finalized /\
  s_filePath st' = s_filePath st /\
  host st' = host st.
Proof.
  apply (processFile_configuration 1 "quiet.py" sample_state
           (finalized (booted sample_state)) true).
  reflexivity.
Defined.

(** [paths.py], two calls of [get_file_path]. *)
Lemma processFile_file_path_queries_only_witness :
  exists st',
    processFile 1 "paths.py" script_state = Ok true st' /\
    status (python st') = Finalized /\
    s_dataProvider st' = s_dataProvider script_state /\
    events st' = events script_state /\
    error st' = error script_state.
Proof.
  apply (processFile_file_path_queries_only 1 "paths.py"
           [Call "get_file_path" []; Call "get_file_path" []] script_state).
  - reflexivity.
  - repeat constructor.
Defined.

(** [patch.py], one [patch(1, b"\xff")]. *)
Lemma processFile_single_patch_witness :
  exists st',
    processFile 1 "patch.py" script_state = Ok true st' /\
    status (python st') = Finalized /\
    events st' = events script_state /\
    s_dataProvider st'
    = if 1 <? getActualSize (s_dataProvider script_state)
      then write (s_dataProvider script_state) 1 [xff] (Z.of_nat (List.length [xff]))
      else s_dataProvider script_state.
Proof.
  apply (processFile_single_patch 1 "patch.py" 1 [xff] script_state).
  - reflexivity.
  - unfold u64_modulus. lia.
  - discriminate.
Defined.

(** ** Keys that are not plain names, and scripts that do not come back *)

Section KeysAndExits.

Context {P : Type} `{Provider P}.

(** A member whose key is not text, after accepted members only and
    within the first 65536: [PyUnicode_AsUTF8] fails and leaves its
    exception pending, the call of the member's type then gives no
    instance whatever the type, and the null instance is dereferenced.  The
    call does not return; nothing was posted or written. *)
Theorem createStructureType_member_key_not_text (fuel : nat) (keyword : string)
        (C : PyTypeObject) (k v : PyObject)
        (before after : list (PyObject * PyObject)) (st : state P) :
  tp_new0 C = true -> not_ImHexType C = false ->
  annotations C = ptr_to (before ++ (k, v) :: after) ->
  forallb member_ok before = true ->
  PyList_Size before < u16_modulus ->
  PyUnicode_AsUTF8 k = nullptr ->
  (List.length before < fuel)%nat ->
  createStructureType fuel keyword [PyType C] st
  = Undefined (with_error (ptr_to member_error) st).
Proof.
  intros Hnew Hbase Hann Hall Hsize Hkey Hfuel.
  rewrite (createStructureType_loop _ _ C _ st Hnew Hbase Hann).
  replace fuel with (List.length before + S (fuel - S (List.length before)))%nat
    by lia.
  pose proof (member_loop_passes before [] ((k, v) :: after)
                (keyword ++ " " ++ tp_name C ++ " {" ++ nl)
                (S (fuel - S (List.length before))) st Hall) as Hpass.
  cbn [app List.length Nat.add] in Hpass.
  change (Z.of_nat 0) with 0 in Hpass.
  rewrite Hpass by exact Hsize.
  rewrite (member_loop_no_instance _ _ _ _ k v).
  - reflexivity.
  - unfold PyList_Size. rewrite length_app. cbn [List.length]. lia.
  - unfold PyList_GetItem.
    replace (Z.of_nat (List.length before) <? 0) with false
      by (symmetry; apply Z.ltb_ge; lia).
    rewrite Nat2Z.id, nth_error_app2, Nat.sub_diag by lia. reflexivity.
  - rewrite Hkey. reflexivity.
Qed.

End KeysAndExits.

Definition NUL : string := String "000"%char EmptyString.

(** A member name with an embedded NUL is cut there in the text posted:
    [class Header(ImHexType)] with the one key ["ma\0gic"]. *)
Lemma member_name_cut_at_nul :
  createStructureType 2 "struct"
    [PyType (guest_class "Header" [(PyUnicode ("ma" ++ NUL ++ "gic"), PyType Magic)] true)]
    sample_state
  = Ok (ptr_to PyNone)
       (with_events
          (events sample_state ++
           [AppendPatternLanguageCode
              ("struct Header {" ++ nl ++ "   Magic ma;" ++ nl ++ "};" ++ nl)])
          sample_state).
Proof. reflexivity. Qed.




(** [class Header(ImHexType)] with [__annotations__[1] = Magic] put in
    by hand. *)
Lemma createStructureType_member_key_not_text_witness :
  createStructureType 1 "struct"
    [PyType (guest_class "Header" [(PyLong 1, PyType Magic)] true)]
    sample_state
  = Undefined (with_error (ptr_to member_error) sample_state).
Proof.
  apply (createStructureType_member_key_not_text 1 "struct"
           (guest_class "Header" [(PyLong 1, PyType Magic)] true)
           (PyLong 1) (PyType Magic) [] [] sample_state);
    solve [reflexivity | cbn; lia].
Defined.
